(** * Clone-selection workflow simulator: a shallow embedding of simulation.py

    The development follows [src/simulation.py] function by function.

    Numbers.  numpy's float64 values are read as exact rationals ([Q]); the
    square root, which has no rational counterpart, is a parameter of the
    trial.  Python integers (keep-counts, repetition counts, row counts) are
    [Z]; positions inside arrays are [nat].  The efficiency metrics, whose
    identities are sensitive to rounding, are given on binary64 floats as
    well.

    Arrays.  A numpy vector is a [list]; indexing is stdpp's lookup, and what
    numpy raises out of range is written out as an [IndexError].

    Exceptions.  A Python function that may raise returns [except A]
    (a sum with the raised exception on the left).

    Randomness.  scipy's generators are driven by a random source [rng]: an
    infinite tape of values with a cursor.  Drawing [k] values reads the next
    [k] cells of the tape and advances the cursor, so that every possible
    outcome of the random draws is some tape.  The tape is not tied to the
    distribution drawn from: what is proved holds for every tape. *)

From Stdlib Require Import QArith Qabs Qround.
From Stdlib Require Import Floats.PrimFloat Numbers.Cyclic.Int63.Uint63.
From stdpp Require Import base option list numbers strings gmap sorting.

Local Open Scope string_scope.
Local Open Scope Z_scope.
Local Open Scope list_scope.

(** ** Exceptions *)

Inductive exn : Type :=
  | NoPositiveData                       (* fit_lognormal, line 10 *)
  | NoValidPoints                        (* generate_samples, line 19 *)
  | UnsupportedMethod                    (* generate_samples, line 28 *)
  | UnsupportedOperator (op : string)    (* apply_criteria_filter, line 48 *)
  | NoValidData                          (* simulate_workflow, line 64 *)
  | Step1ExceedsData (step1 size : Z)    (* simulate_workflow, line 67 *)
  | Step2ExceedsStep1 (step2 step1 : Z)  (* simulate_workflow, line 70 *)
  | Step3ExceedsStep2 (step3 step2 : Z)  (* simulate_workflow, line 73 *)
  | IndexError                           (* numpy: index or mask out of range *)
  | BroadcastError                       (* numpy: operand shapes do not agree *)
  | NegativeSize                         (* scipy: a negative number of draws *)
  | KdeSingular                          (* scipy: gaussian_kde on data without spread *)
  | PercentileRange                      (* numpy: percentile outside 0..100 *)
  | ZeroDivisionError.                   (* Python: integer division by zero *)

Definition except (A : Type) : Type := exn + A.

Definition ok {A} (a : A) : except A := inr a.
Definition raise {A} (e : exn) : except A := inl e.

Global Instance except_ret : MRet except := λ A a, inr a.
Global Instance except_bind : MBind except := λ A B k m,
  match m with
  | inl e => inl e
  | inr a => k a
  end.

(** ** Rational comparisons, as booleans *)

Definition Qleb (x y : Q) : bool := Qle_bool x y.
Definition Qltb (x y : Q) : bool := negb (Qle_bool y x).

Lemma Qleb_le x y : Qleb x y = true ↔ (x <= y)%Q.
Proof. apply Qle_bool_iff. Qed.

Lemma Qltb_lt x y : Qltb x y = true ↔ (x < y)%Q.
Proof.
  unfold Qltb. rewrite negb_true_iff. split.
  - intros H. apply Qnot_le_lt. intros Hle.
    apply Qle_bool_iff in Hle. congruence.
  - intros H. destruct (Qle_bool y x) eqn:E; [|done].
    apply Qle_bool_iff in E. exfalso. eapply Qlt_not_le; eauto.
Qed.

(** ** numpy vectors *)

(** [a[idx]] for an integer index array: every index must be in range. *)
Definition take_indices {A} (a : list A) (idx : list nat) : except (list A) :=
  match mapM (λ i, a !! i) idx with
  | Some r => ok r
  | None => raise IndexError
  end.

(** [a[mask]] for a boolean mask: the mask must have the length of [a]. *)
Fixpoint mask_select {A} (a : list A) (mask : list bool) : list A :=
  match a, mask with
  | x :: a', b :: mask' =>
      if b then x :: mask_select a' mask' else mask_select a' mask'
  | _, _ => []
  end.

Definition take_mask {A} (a : list A) (mask : list bool) : except (list A) :=
  if decide (length a = length mask) then ok (mask_select a mask)
  else raise IndexError.

(** [a[-k:]]: the last [k] elements for a positive [k] (all of [a] when it has
    fewer), all of [a] for [k = 0] (the slice is then [a[0:]]), and [a] without
    its first [-k] elements for a negative [k]. *)
Definition py_tail {A} (k : Z) (a : list A) : list A :=
  if decide (0 < k) then drop (length a - Z.to_nat k)%nat a
  else drop (Z.to_nat (- k)) a.

(** Elementwise arithmetic on two vectors, with numpy's broadcasting rule for
    one dimension: equal lengths, or one operand of length one. *)
Definition broadcast2 (f : Q → Q → Q) (a b : list Q) : except (list Q) :=
  if decide (length a = length b) then ok (zip_with f a b)
  else match a, b with
       | [x], _ => ok (map (f x) b)
       | _, [y] => ok (map (λ x, f x y) a)
       | _, _ => raise BroadcastError
       end.

(** [np.argsort]: the positions of [a] listed by ascending value.  The keys
    travel with their positions through stdpp's merge sort; equal keys are
    listed in the order of their positions, which is what numpy does on the
    short vectors it sorts by insertion.  numpy's default sort is not stable
    on long vectors, and no statement below depends on the order of ties. *)
Definition key_le (p q : Q * nat) : Prop :=
  Qltb p.1 q.1 || (Qleb p.1 q.1 && (p.2 <=? q.2)%nat) = true.

Global Instance key_le_dec : RelDecision key_le.
Proof. intros p q. unfold key_le. apply _. Defined.

Definition keyed (a : list Q) : list (Q * nat) := zip a (seq 0 (length a)).

Definition argsort (a : list Q) : list nat :=
  (merge_sort key_le (keyed a)).*2.

(** [np.sort] and [np.percentile] with the default linear interpolation. *)
Global Instance Qle_dec : RelDecision Qle.
Proof.
  intros x y. destruct (Qle_bool x y) eqn:E.
  - left. by apply Qle_bool_iff.
  - right. intros H. apply Qle_bool_iff in H. congruence.
Defined.

Definition np_sort (a : list Q) : list Q := merge_sort Qle a.

Definition percentile (a : list Q) (q : Q) : except Q :=
  if Qltb q 0 || Qltb 100 q then raise PercentileRange
  else
    let s := np_sort a in
    let pos := (q / 100 * inject_Z (Z.of_nat (length s) - 1))%Q in
    let lo := Z.to_nat (Qfloor pos) in
    let hi := Nat.min (S lo) (length s - 1) in
    match s !! lo, s !! hi with
    | Some x, Some y => ok (x + (y - x) * (pos - inject_Z (Qfloor pos)))%Q
    | _, _ => raise IndexError
    end.

(** ** Distribution fitting and sample generation *)

(** scipy's [lognorm.fit(data, floc=0)] returns the maximum-likelihood triple
    (shape, loc, scale) of [data]; the triple is a function of the data it was
    fitted to and is kept as such. *)
Inductive fitted : Type :=
  | LognormFit (support : list Q).

Definition positive (x : Q) : bool := Qltb 0 x.

Definition fit_lognormal (data : list Q) : except fitted :=
  let data := filter (λ x, positive x = true) data in
  if decide (length data = 0%nat) then raise NoPositiveData
  else ok (LognormFit data).

(** The call that [generate_samples] hands to scipy. *)
Inductive draw : Type :=
  | LognormRvs (model : fitted) (size : Z)      (* lognorm.rvs(shape, loc, scale, size) *)
  | KdeResample (dataset : list Q) (size : Z).  (* gaussian_kde(dataset).resample(size) *)

Definition sample_request (data : list Q) (size : Z) (method : string)
    (fitted_model : option fitted) : except draw :=
  let data := filter (λ x, positive x = true) data in
  if decide (length data = 0%nat) then raise NoValidPoints
  else if decide (method = "lognormal") then
    model ← match fitted_model with
            | Some m => ok m
            | None => fit_lognormal data
            end;
    ok (LognormRvs model size)
  else if decide (method = "kde") then
    ok (KdeResample data size)
  else raise UnsupportedMethod.

Record rng : Type := Rng { tape : nat → Q; cursor : nat }.

Definition draw_size (d : draw) : Z :=
  match d with
  | LognormRvs _ size => size
  | KdeResample _ size => size
  end.

Definition next_values (g : rng) (k : nat) : list Q :=
  map (tape g) (seq (cursor g) k).

Definition advance (g : rng) (k : nat) : rng :=
  Rng (tape g) (cursor g + k).

(** [gaussian_kde] builds its estimate from the covariance of the dataset and
    raises when the dataset has no spread: a single value, or values that are
    all equal. *)
Definition spread (dataset : list Q) : bool :=
  match dataset with
  | [] => false
  | x :: rest => existsb (λ y, negb (Qeq_bool x y)) rest
  end.

Definition estimable (d : draw) : bool :=
  match d with
  | LognormRvs _ _ => true
  | KdeResample dataset _ => spread dataset
  end.

(** What scipy does with a request: the estimate is built first, then the
    size is checked and the values are drawn.  [lognorm.rvs] is taken to
    accept every fitted model. *)
Definition run_draw (d : draw) (g : rng) : except (list Q) * rng :=
  let size := draw_size d in
  if negb (estimable d) then (raise KdeSingular, g)
  else if decide (size < 0) then (raise NegativeSize, g)
  else (ok (next_values g (Z.to_nat size)), advance g (Z.to_nat size)).

Definition generate_samples (data : list Q) (size : Z) (method : string)
    (fitted_model : option fitted) (g : rng) : except (list Q) * rng :=
  match sample_request data size method fitted_model with
  | inl e => (inl e, g)
  | inr d => run_draw d g
  end.

(** ** Criteria filter *)

(** A pandas table: its number of rows ([len(df)]) and its named numeric
    columns ([df.columns], [df[name].values]). *)
Record frame : Type := Frame { df_len : nat; df_columns : gmap string (list Q) }.

Definition criterion : Type := string * string * Q.

(** The float literal [1e-10]. *)
Definition eps : Q := 1 # 10000000000.

Definition compare (op : string) (col_vals : list Q) (thresh : Q)
    : except (list bool) :=
  if decide (op = ">=") then ok (map (λ v, Qleb thresh v) col_vals)
  else if decide (op = "<=") then ok (map (λ v, Qleb v thresh) col_vals)
  else if decide (op = "=") then
    ok (map (λ v, Qltb (Qabs (v - thresh)) eps) col_vals)
  else raise (UnsupportedOperator op).

(** The [for] loop of lines 36-48, with [filter_mask] as accumulator. *)
Fixpoint criteria_loop (df : frame) (criteria_settings : list criterion)
    (indices : list nat) (filter_mask : list bool) : except (list bool) :=
  match criteria_settings with
  | [] => ok filter_mask
  | (crit_col, op, thresh) :: rest =>
      match df_columns df !! crit_col with
      | None => criteria_loop df rest indices filter_mask
      | Some values =>
          col_vals ← take_indices values indices;
          passed ← compare op col_vals thresh;
          criteria_loop df rest indices (zip_with andb filter_mask passed)
      end
  end.

Definition apply_criteria_filter (df : frame)
    (criteria_settings : list criterion) (indices : list nat)
    : except (list bool) :=
  match criteria_settings with
  | [] => ok (replicate (length indices) true)
  | _ => criteria_loop df criteria_settings indices
           (replicate (length indices) true)
  end.

(** ** Workflow efficiency *)

(** Python's [/] on two integers, read exactly: the quotient before it is
    rounded to float64 ([true_div_f64] below is the rounded one). *)
Definition true_div (a b : Z) : except Q :=
  if decide (b = 0) then raise ZeroDivisionError
  else ok (inject_Z a / inject_Z b)%Q.

Record efficiency : Type := Efficiency {
  reduction_ratio : Q;
  step1_efficiency : Q;
  step2_efficiency : Q;
  overall_efficiency : Q
}.

Definition calculate_workflow_efficiency
    (step1_keep step2_keep step3_keep workflow_steps : Z) : except efficiency :=
  let total_screened := step1_keep in
  let final_selected :=
    if decide (workflow_steps = 3) then step3_keep else step2_keep in
  rr ← true_div total_screened final_selected;
  e1 ← true_div step2_keep step1_keep;
  e2 ← (if decide (workflow_steps = 3) then true_div step3_keep step2_keep
        else ok 1%Q);
  ov ← true_div final_selected total_screened;
  ok (Efficiency rr e1 e2 ov).

(** *** The same function on float64

    The rational reading above gives the quotients themselves; what Python
    returns are their float64 roundings.  For integers below 2^53 in size,
    which both convert to float64 without rounding, Python's [a / b] is the
    IEEE quotient of the converted integers; keep-counts are far below that
    bound. *)
Definition float_of_int (z : Z) : float :=
  if decide (z < 0) then PrimFloat.opp (PrimFloat.of_uint63 (Uint63.of_Z (- z)))
  else PrimFloat.of_uint63 (Uint63.of_Z z).

Definition true_div_f64 (a b : Z) : except float :=
  if decide (b = 0) then raise ZeroDivisionError
  else ok (PrimFloat.div (float_of_int a) (float_of_int b)).

Record efficiency_f64 : Type := EfficiencyF64 {
  reduction_ratio_f64 : float;
  step1_efficiency_f64 : float;
  step2_efficiency_f64 : float;
  overall_efficiency_f64 : float
}.

Definition calculate_workflow_efficiency_f64
    (step1_keep step2_keep step3_keep workflow_steps : Z)
    : except efficiency_f64 :=
  let total_screened := step1_keep in
  let final_selected :=
    if decide (workflow_steps = 3) then step3_keep else step2_keep in
  rr ← true_div_f64 total_screened final_selected;
  e1 ← true_div_f64 step2_keep step1_keep;
  e2 ← (if decide (workflow_steps = 3) then true_div_f64 step3_keep step2_keep
        else ok PrimFloat.one);
  ov ← true_div_f64 final_selected total_screened;
  ok (EfficiencyF64 rr e1 e2 ov).

(** ** Workflow simulator *)

(** One pass through the body of the [for rep] loop either raises, leaves the
    iteration with [continue], or runs to the end of the body. *)
Inductive flow (A : Type) : Type :=
  | Raised (e : exn)
  | Continue
  | Normal (a : A).
Arguments Raised {A} e.
Arguments Continue {A}.
Arguments Normal {A} a.

Definition body (A : Type) : Type := rng → flow A * rng.

Global Instance body_ret : MRet body := λ A a g, (Normal a, g).
Global Instance body_bind : MBind body := λ A B k m g,
  match m g with
  | (Raised e, g') => (Raised e, g')
  | (Continue, g') => (Continue, g')
  | (Normal a, g') => k a g'
  end.

Definition continue {A} : body A := λ g, (Continue, g).

(** A call that may raise and may draw random values. *)
Definition call {A} (m : rng → except A * rng) : body A := λ g,
  match m g with
  | (inl e, g') => (Raised e, g')
  | (inr a, g') => (Normal a, g')
  end.

(** A call that may raise and does not draw. *)
Definition eval {A} (m : except A) : body A := call (λ g, (m, g)).

Record stage1 : Type := Stage1 {
  assay_f : list Q;      (* after the optional up-front criteria filter *)
  top1_idx : list nat;
  top1_f : list Q
}.

Record stage2 : Type := Stage2 {
  noise1 : list Q;
  assay_g : list Q;
  top2_idx : list nat;
  top2_f : list Q
}.

Record final : Type := Final {
  final_assay : list Q;   (* the vector that is ranked: assay_h or assay_g *)
  final_idx : list nat;
  final_scores : list Q
}.

Definition len {A} (a : list A) : Z := Z.of_nat (length a).

Definition count_ge (scores : list Q) (cutoff : Q) : Z :=
  len (filter (λ v, Qleb cutoff v = true) scores).

Section Simulator.

(** [np.sqrt] on float64. *)
Variable np_sqrt : Q → Q.

(** [correlation * base + np.sqrt(1 - correlation**2) * noise] *)
Definition mix (correlation : Q) (base noise : list Q) : except (list Q) :=
  broadcast2
    (λ b n, correlation * b + np_sqrt (1 - correlation * correlation) * n)%Q
    base noise.

Section Trial.

Variables (real_data : list Q) (df : frame).
Variables (step1_keep step2_keep step3_keep : Z) (correlation : Q).
Variables (method : string) (criteria_settings : list criterion).
Variables (apply_criteria : bool) (workflow_steps : Z).
Variables (fitted_model : option fitted) (cutoff : Q).

(** Lines 86-98. *)
Definition select_step1 : body stage1 :=
  assay_f ← call (generate_samples real_data (len real_data) method
                    fitted_model);
  assay_f ←
    (if negb apply_criteria then
       filter_mask ← eval (apply_criteria_filter df criteria_settings
                             (seq 0 (df_len df)));
       assay_f ← eval (take_mask assay_f filter_mask);
       if decide (len assay_f < step1_keep) then continue
       else mret assay_f
     else mret assay_f);
  let top1_idx := py_tail step1_keep (argsort assay_f) in
  top1_f ← eval (take_indices assay_f top1_idx);
  mret (Stage1 assay_f top1_idx top1_f).

(** Lines 100-109. *)
Definition select_step2 (s1 : stage1) : body stage2 :=
  noise1 ← call (generate_samples real_data step1_keep method
                   fitted_model);
  assay_g ← eval (mix correlation (top1_f s1) noise1);
  if decide (len assay_g < step2_keep) then continue
  else
    let top2_idx := py_tail step2_keep (argsort assay_g) in
    top2_f ← eval (take_indices (top1_f s1) top2_idx);
    mret (Stage2 noise1 assay_g top2_idx top2_f).

(** Lines 111-123. *)
Definition select_final (s1 : stage1) (s2 : stage2) : body final :=
  if decide (workflow_steps = 3) then
    noise2 ← call (generate_samples real_data step2_keep method
                     fitted_model);
    assay_h ← eval (mix correlation (top2_f s2) noise2);
    if decide (len assay_h < step3_keep) then continue
    else
      let final_idx := py_tail step3_keep (argsort assay_h) in
      final_scores ← eval (take_indices (top2_f s2) final_idx);
      mret (Final assay_h final_idx final_scores)
  else
    let final_idx := py_tail step3_keep (argsort (assay_g s2)) in
    final_scores ← eval (take_indices (top1_f s1) final_idx);
    mret (Final (assay_g s2) final_idx final_scores).

(** Lines 125-136. *)
Definition final_gate (s1 : stage1) (s2 : stage2) (fin : final)
    : body unit :=
  if apply_criteria then
    original_indices ←
      (if decide (workflow_steps = 3) then
         through2 ← eval (take_indices (top2_idx s2) (final_idx fin));
         eval (take_indices (top1_idx s1) through2)
       else eval (take_indices (top1_idx s1) (final_idx fin)));
    mask ← eval (apply_criteria_filter df criteria_settings
                   original_indices);
    if negb (forallb id mask) then continue else mret ()
  else mret ().

(** The body of the loop up to line 139: the selections of one trial and
    its success count. *)
Definition trial : body (stage1 * stage2 * final * Z) :=
  s1 ← select_step1;
  s2 ← select_step2 s1;
  fin ← select_final s1 s2;
  _ ← final_gate s1 s2 fin;
  mret (s1, s2, fin, count_ge (final_scores fin) cutoff).

(** Lines 84-148: [n] iterations, threading [success_count] and
    [success_counts]; an iteration that raises or continues leaves both
    untouched. *)
Fixpoint trials (n : nat) (success_count : Z) (success_counts : list Z)
    (g : rng) : Z * list Z * rng :=
  match n with
  | O => (success_count, success_counts, g)
  | S n' =>
      match trial g with
      | (Normal (_, _, _, count_success), g') =>
          trials n'
            (if decide (count_success = step3_keep)
             then success_count + 1 else success_count)
            (success_counts ++ [count_success]) g'
      | (_, g') => trials n' success_count success_counts g'
      end
  end.

(** How [n] consecutive iterations of the loop body end, each one started on
    the random source the one before it left: the vocabulary in which the
    statements about the loop name "the trials of a run". *)
Fixpoint trial_outcomes (n : nat) (g : rng)
    : list (flow (stage1 * stage2 * final * Z)) * rng :=
  match n with
  | O => ([], g)
  | S n' =>
      let '(outcome, g') := trial g in
      let '(outcomes, g'') := trial_outcomes n' g' in
      (outcome :: outcomes, g'')
  end.

End Trial.

(** The success count of a trial that ran to the end; a trial that raised or
    was cut short by [continue] has none. *)
Definition completed (outcome : flow (stage1 * stage2 * final * Z))
    : option Z :=
  match outcome with
  | Normal (_, _, _, count_success) => Some count_success
  | _ => None
  end.

(** The trials that ended with all [step3_keep] final clones successful. *)
Definition fully_successful_trials (step3_keep : Z)
    (outcomes : list (flow (stage1 * stage2 * final * Z)))
    : list (flow (stage1 * stage2 * final * Z)) :=
  filter (λ outcome, completed outcome = Some step3_keep) outcomes.

(** Lines 63-73. *)
Definition validate (real_data : list Q)
    (step1_keep step2_keep step3_keep workflow_steps : Z) : except unit :=
  if decide (len real_data = 0) then raise NoValidData
  else if decide (step1_keep > len real_data) then
    raise (Step1ExceedsData step1_keep (len real_data))
  else if decide (step2_keep > step1_keep) then
    raise (Step2ExceedsStep1 step2_keep step1_keep)
  else if decide (workflow_steps = 3 ∧ step3_keep > step2_keep) then
    raise (Step3ExceedsStep2 step3_keep step2_keep)
  else ok ().

Definition simulate_workflow (real_data : list Q) (df : frame)
    (top_x_percent step1_keep step2_keep step3_keep : Z) (correlation : Q)
    (n_rep : Z) (method : string) (criteria_settings : list criterion)
    (apply_criteria : bool) (workflow_steps : Z) (g : rng)
    : except (Q * option fitted * list Z) * rng :=
  let setup :=
    _ ← validate real_data step1_keep step2_keep step3_keep workflow_steps;
    fitted_model ← (if decide (method = "lognormal")
                    then m ← fit_lognormal real_data; ok (Some m)
                    else ok None);
    cutoff ← percentile real_data (inject_Z (100 - top_x_percent));
    ok (fitted_model, cutoff) in
  match setup with
  | inl e => (inl e, g)
  | inr (fitted_model, cutoff) =>
      let '(success_count, success_counts, g') :=
        trials real_data df step1_keep step2_keep step3_keep correlation
          method criteria_settings apply_criteria workflow_steps
          fitted_model cutoff (Z.to_nat n_rep) 0 [] g in
      let success_probability :=
        if decide (n_rep > 0)
        then (inject_Z success_count / inject_Z n_rep)%Q else 0%Q in
      (ok (success_probability, fitted_model, success_counts), g')
  end.

End Simulator.

(** ** Sensitivity driver *)

(** The settings dictionary built by the sidebar, with the keys the driver
    reads. *)
Module Settings.
Record t : Type := Make {
  top_x_percent : Z;
  step1_keep : Z;
  step2_keep : Z;
  step3_keep : Z;
  dist_method : string;
  criteria_settings : list criterion;
  apply_criteria_at_step2 : bool;
  workflow_steps : Z
}.

(** [settings[key] = value] for the integer keys the driver assigns. *)
Definition set (key : string) (value : Z) (s : t) : t :=
  if decide (key = "step1_keep") then
    Make (top_x_percent s) value (step2_keep s) (step3_keep s)
      (dist_method s) (criteria_settings s) (apply_criteria_at_step2 s)
      (workflow_steps s)
  else if decide (key = "step2_keep") then
    Make (top_x_percent s) (step1_keep s) value (step3_keep s)
      (dist_method s) (criteria_settings s) (apply_criteria_at_step2 s)
      (workflow_steps s)
  else if decide (key = "step3_keep") then
    Make (top_x_percent s) (step1_keep s) (step2_keep s) value
      (dist_method s) (criteria_settings s) (apply_criteria_at_step2 s)
      (workflow_steps s)
  else if decide (key = "top_x_percent") then
    Make value (step1_keep s) (step2_keep s) (step3_keep s)
      (dist_method s) (criteria_settings s) (apply_criteria_at_step2 s)
      (workflow_steps s)
  else s.
End Settings.

(** Python's [int] on a float: truncation toward zero. *)
Definition int_of_float (q : Q) : Z := Z.quot (Qnum q) (Z.pos (Qden q)).

(** [int(base * factor)] for an integer [base] and a float [factor]. *)
Definition scaled (base : Z) (factor : Q) : Z :=
  int_of_float (inject_Z base * factor).

(** Lines 164-176. *)
Definition param_ranges (base_settings : Settings.t)
    : list (string * list Z) :=
  [ ("step1_keep",
     [ scaled (Settings.step1_keep base_settings) (1 # 2);
       scaled (Settings.step1_keep base_settings) (3 # 4);
       Settings.step1_keep base_settings;
       scaled (Settings.step1_keep base_settings) (5 # 4);
       scaled (Settings.step1_keep base_settings) (3 # 2) ]);
    ("step2_keep",
     [ scaled (Settings.step2_keep base_settings) (1 # 2);
       scaled (Settings.step2_keep base_settings) (3 # 4);
       Settings.step2_keep base_settings;
       scaled (Settings.step2_keep base_settings) (5 # 4);
       scaled (Settings.step2_keep base_settings) (3 # 2) ]);
    ("top_x_percent", [1; 2; 5; 10; 15]) ].

(** Lines 186-194. *)
Definition test_settings (base_settings : Settings.t) (param_name : string)
    (param_value : Z) : Settings.t :=
  let test := Settings.set param_name param_value base_settings in
  if decide (param_name = "step1_keep") then
    let test :=
      Settings.set "step2_keep"
        (Z.min (Settings.step2_keep test) param_value) test in
    Settings.set "step3_keep"
      (Z.min (Settings.step3_keep test) (Settings.step2_keep test)) test
  else if decide (param_name = "step2_keep") then
    Settings.set "step3_keep"
      (Z.min (Settings.step3_keep test) param_value) test
  else test.

Record sweep : Type := Sweep { values : list Z; probabilities : list Q }.

Section Sensitivity.

Variable np_sqrt : Q → Q.
Variables (results : list Q) (df : frame) (base_settings : Settings.t).
Variable correlation : Q.

(** Lines 196-206: one candidate. *)
Definition probe (param_name : string) (param_value : Z) (g : rng)
    : Q * rng :=
  let test := test_settings base_settings param_name param_value in
  match simulate_workflow np_sqrt results df
          (Settings.top_x_percent test) (Settings.step1_keep test)
          (Settings.step2_keep test) (Settings.step3_keep test)
          correlation 1000 (Settings.dist_method test)
          (Settings.criteria_settings test)
          (Settings.apply_criteria_at_step2 test)
          (Settings.workflow_steps test) g with
  | (inr (prob, _, _), g') => (prob, g')
  | (inl _, g') => (0%Q, g')
  end.

(** Lines 184-206: the candidates of one parameter, in order. *)
Fixpoint probe_all (param_name : string) (param_values : list Z)
    (probabilities : list Q) (g : rng) : list Q * rng :=
  match param_values with
  | [] => (probabilities, g)
  | param_value :: rest =>
      let '(prob, g') := probe param_name param_value g in
      probe_all param_name rest (probabilities ++ [prob]) g'
  end.

(** Lines 181-211: the parameters, in the order of [param_ranges]. *)
Fixpoint sweep_all (ranges : list (string * list Z))
    (sensitivity_results : list (string * sweep)) (g : rng)
    : list (string * sweep) * rng :=
  match ranges with
  | [] => (sensitivity_results, g)
  | (param_name, param_values) :: rest =>
      let '(probabilities, g') := probe_all param_name param_values [] g in
      sweep_all rest
        (sensitivity_results
           ++ [(param_name, Sweep param_values probabilities)]) g'
  end.

End Sensitivity.

Definition run_sensitivity_analysis (np_sqrt : Q → Q) (results : list Q)
    (df : frame) (settings : Settings.t) (correlations : list Q) (g : rng)
    : list (string * sweep) * rng :=
  let correlation := default (1 # 2)%Q (head correlations) in
  sweep_all np_sqrt results df settings correlation (param_ranges settings)
    [] g.

(** ** The specification's reading of two operations *)


(** Rounding to the nearest integer, ties to even (Python's [round]). *)
Definition round_nearest (q : Q) : Z :=
  let f := Qfloor q in
  let r := (q - inject_Z f)%Q in
  if Qltb r (1 # 2) then f
  else if Qltb (1 # 2) r then f + 1
  else if Z.even f then f else f + 1.

Definition rounded_candidates (base : Z) : list Z :=
  map (λ factor, round_nearest (inject_Z base * factor))
    [1 # 2; 3 # 4; 1; 5 # 4; 3 # 2]%Q.

(** ** Vocabulary of the statements and example data *)

Definition eleventh : Q := 1 # 100000000000.   (* 1e-11 *)
Definition ninth : Q := 1 # 1000000000.        (* 1e-9 *)

Definition titer_table : frame :=
  Frame 4 {[ "Titer" := [5 + eleventh; 5 - eleventh; 5 + ninth; 5 - ninth]%Q ]}.

(** A random source that yields the listed values, then ones. *)
Definition tape_of (draws : list Q) : rng :=
  Rng (λ i, default 1%Q (draws !! i)) 0.

(** A square root that is exact on the squares of rationals, which is what
    the examples feed it. *)
Definition sqrt_of_square (q : Q) : Q :=
  let r := Qred q in
  inject_Z (Z.sqrt (Qnum r)) / inject_Z (Z.sqrt (Z.pos (Qden r))).

Definition six_clones : list Q := [1; 2; 3; 4; 5; 6]%Q.

Definition six_draws : rng :=
  tape_of [2; 9; 4; 7; 1; 5;  3; 1; 2; 6;  1; 4]%Q.

(** The selections of the first trial on [six_draws] with four, then two
    clones kept and a correlation of 0.6. *)
Definition six_stage1 : stage1 :=
  Stage1 [2; 9; 4; 7; 1; 5]%Q [2; 5; 3; 1]%nat [4; 5; 7; 9]%Q.

Definition six_stage2 : stage2 :=
  Stage2 [3; 1; 2; 6]%Q [120 # 25; 95 # 25; 145 # 25; 255 # 25]%Q
    [2; 3]%nat [7; 9]%Q.


(** The number of trials whose count equals [step3_keep]. *)
Definition fully_successful (step3_keep : Z) (success_counts : list Z) : Z :=
  len (filter (λ c, c = step3_keep) success_counts).

(** Two trials of a 2-step workflow; the second one ends with the clone of
    row 0 among its final survivors. *)
Definition two_trials : rng :=
  tape_of [2; 9; 4; 7; 1; 5;  3; 1; 2; 6;
           9; 2; 4; 7; 1; 5;  3; 1; 2; 6]%Q.

Definition purity_table : frame :=
  Frame 6 {[ "Purity" := [0; 1; 1; 1; 1; 1]%Q ]}.

(** [p] is what the driver records for candidate [param_value] of
    [param_name] from some state of the random source: the probability the
    simulator returns with 1000 repetitions, or 0 when the simulator raises. *)
Definition candidate_outcome (np_sqrt : Q → Q) (results : list Q)
    (df : frame) (base_settings : Settings.t) (correlation : Q)
    (param_name : string) (param_value : Z) (p : Q) : Prop :=
  let test := test_settings base_settings param_name param_value in
  ∃ g,
    match (simulate_workflow np_sqrt results df
             (Settings.top_x_percent test) (Settings.step1_keep test)
             (Settings.step2_keep test) (Settings.step3_keep test)
             correlation 1000 (Settings.dist_method test)
             (Settings.criteria_settings test)
             (Settings.apply_criteria_at_step2 test)
             (Settings.workflow_steps test) g).1 with
    | inl _ => p = 0%Q
    | inr (prob, _, _) => p = prob
    end.

Definition supported (op : string) : Prop :=
  op = ">=" ∨ op = "<=" ∨ op = "=".

Global Instance supported_dec (op : string) : Decision (supported op).
Proof. unfold supported. apply _. Defined.

(** Every index is a row position of every column of the table. *)
Definition row_positions (df : frame) (indices : list nat) : Prop :=
  ∀ col values, df_columns df !! col = Some values →
    Forall (λ i, (i < length values)%nat) indices.


(** The four preconditions checked on lines 63-73. *)
Definition violated (real_data : list Q)
    (step1_keep step2_keep step3_keep workflow_steps : Z) : Prop :=
  len real_data = 0 ∨ step1_keep > len real_data ∨ step2_keep > step1_keep ∨
  (workflow_steps = 3 ∧ step3_keep > step2_keep).

Global Instance violated_dec real_data step1_keep step2_keep step3_keep
    workflow_steps :
  Decision (violated real_data step1_keep step2_keep step3_keep workflow_steps).
Proof. unfold violated. apply _. Defined.

Definition configuration_error (e : exn) : Prop :=
  match e with
  | NoValidData | Step1ExceedsData _ _ | Step2ExceedsStep1 _ _
  | Step3ExceedsStep2 _ _ => True
  | _ => False
  end.

(** [int(base * f)] for the four factors, as integer quotients that truncate
    toward zero. *)
Definition truncated_candidates (base : Z) : list Z :=
  [base ÷ 2; (base * 3) ÷ 4; base; (base * 5) ÷ 4; (base * 3) ÷ 2].

(** ** Parameter check of lines 229-245 *)

(** The messages [validate_workflow_parameters] appends, with the numbers they
    quote. *)
Inductive issue : Type :=
  | Step1ExceedsTotal (step1_keep total_clones : Z)
  | Step2ExceedsStep1Keep (step2_keep step1_keep : Z)
  | Step3ExceedsStep2Keep (step3_keep step2_keep : Z)
  | KeepNotPositive.

Definition validate_workflow_parameters
    (step1_keep step2_keep step3_keep workflow_steps total_clones : Z)
    : list issue :=
  let errors := [] in
  let errors :=
    if decide (step1_keep > total_clones)
    then errors ++ [Step1ExceedsTotal step1_keep total_clones] else errors in
  let errors :=
    if decide (step2_keep > step1_keep)
    then errors ++ [Step2ExceedsStep1Keep step2_keep step1_keep]
    else errors in
  let errors :=
    if decide (workflow_steps = 3 ∧ step3_keep > step2_keep)
    then errors ++ [Step3ExceedsStep2Keep step3_keep step2_keep]
    else errors in
  let errors :=
    if decide (step1_keep ≤ 0 ∨ step2_keep ≤ 0 ∨ step3_keep ≤ 0)
    then errors ++ [KeepNotPositive] else errors in
  errors.

(** ** Further vocabulary *)

(** The row value [v] meets the comparison [op thresh]. *)
Definition satisfies (op : string) (thresh v : Q) : Prop :=
  (op = ">=" ∧ (thresh <= v)%Q) ∨
  (op = "<=" ∧ (v <= thresh)%Q) ∨
  (op = "=" ∧ (Qabs (v - thresh) < eps)%Q).

(** The row at position [i] meets every criterion of the list that names a
    column of the table. *)
Definition row_passes (df : frame) (criteria_settings : list criterion)
    (i : nat) : Prop :=
  ∀ crit_col op thresh col v,
    (crit_col, op, thresh) ∈ criteria_settings →
    df_columns df !! crit_col = Some col → col !! i = Some v →
    satisfies op thresh v.

(** The number of [true] entries of a mask. *)
Definition count_true (mask : list bool) : nat :=
  length (filter (λ b, b = true) mask).

(** The model [simulate_workflow] keeps for a method: the lognormal fit of
    the positive data, or none. *)
Definition model_for (method : string) (real_data : list Q) : option fitted :=
  if decide (method = "lognormal")
  then Some (LognormFit (filter (λ x, positive x = true) real_data))
  else None.

(** ** Recommended parameters (ai_agent.py, lines 173-202) *)

(** The part of [generate_parameter_recommendations] that depends on
    [data_size = len(df["Results"].dropna())] alone: the recommended workflow
    and the recommended step sizes. *)
Definition workflow_recommendation (data_size : Z) : string :=
  if decide (data_size > 2000) then "3-step workflow"
  else if decide (data_size > 1000) then "2-step workflow"
  else "2-step workflow".

Module Recommended.
Record step_sizes : Type := Make {
  step1_keep : Z;
  step2_keep : Z;
  step3_keep : Z
}.
End Recommended.

Definition recommended_step_sizes (data_size : Z) : Recommended.step_sizes :=
  if decide (data_size > 2000) then
    Recommended.Make (Z.min 192 (data_size / 10)) (Z.min 96 (data_size / 20))
      6
  else if decide (data_size > 1000) then
    Recommended.Make (Z.min 96 (data_size / 10)) (Z.min 48 (data_size / 20))
      6
  else
    Recommended.Make (Z.min 48 (data_size / 5)) (Z.min 24 (data_size / 10))
      6.

(** * Properties *)

(** ** Sample generator *)





(** ** Workflow efficiency *)

Lemma inject_Z_nonzero (z : Z) : z ≠ 0 → ¬ (inject_Z z == 0)%Q.
Proof.
  intros Hz H. apply Hz. unfold Qeq in H. simpl in H. lia.
Qed.

(** C10, as the specification words it, fails on the values Python returns:
    with keep-counts 11, 10 and 9 in three steps the float64 product
    step1 * step2 is one unit in the last place below overall, and
    reduction * overall is one unit in the last place above 1. *)
Lemma efficiency_products_are_inexact_in_float64 :
  ∃ m, calculate_workflow_efficiency_f64 11 10 9 3 = ok m ∧
       PrimFloat.eqb
         (PrimFloat.mul (step1_efficiency_f64 m) (step2_efficiency_f64 m))
         (overall_efficiency_f64 m) = false ∧
       PrimFloat.ltb
         (PrimFloat.mul (step1_efficiency_f64 m) (step2_efficiency_f64 m))
         (overall_efficiency_f64 m) = true ∧
       PrimFloat.eqb
         (PrimFloat.mul (reduction_ratio_f64 m) (overall_efficiency_f64 m))
         PrimFloat.one = false ∧
       PrimFloat.ltb PrimFloat.one
         (PrimFloat.mul (reduction_ratio_f64 m) (overall_efficiency_f64 m))
         = true.
Proof. eexists. split; [vm_compute; reflexivity|]. by vm_compute. Qed.

(** C10, amended: for positive keep-counts and two or three steps the
    efficiency metrics are produced, on the rationals and on float64 alike.
    Each metric is a quotient of two of the counts, the same two in both
    readings, with the final count being [step3_keep] in three steps and
    [step2_keep] in two.  The quotients themselves satisfy
    step1 * step2 = overall and reduction * overall = 1; with two steps,
    step 2 has efficiency exactly 1 in both readings. *)
Theorem efficiency_identities (step1_keep step2_keep step3_keep : Z)
    (workflow_steps : Z) :
  0 < step1_keep → 0 < step2_keep → 0 < step3_keep →
  workflow_steps = 2 ∨ workflow_steps = 3 →
  let final_selected :=
    if decide (workflow_steps = 3) then step3_keep else step2_keep in
  ∃ m mf,
    calculate_workflow_efficiency step1_keep step2_keep step3_keep workflow_steps
      = ok m ∧
    calculate_workflow_efficiency_f64 step1_keep step2_keep step3_keep
      workflow_steps = ok mf ∧
    (step1_efficiency m * step2_efficiency m == overall_efficiency m)%Q ∧
    (reduction_ratio m * overall_efficiency m == 1)%Q ∧
    step1_efficiency m = (inject_Z step2_keep / inject_Z step1_keep)%Q ∧
    step1_efficiency_f64 mf
      = PrimFloat.div (float_of_int step2_keep) (float_of_int step1_keep) ∧
    overall_efficiency m = (inject_Z final_selected / inject_Z step1_keep)%Q ∧
    overall_efficiency_f64 mf
      = PrimFloat.div (float_of_int final_selected) (float_of_int step1_keep) ∧
    reduction_ratio m = (inject_Z step1_keep / inject_Z final_selected)%Q ∧
    reduction_ratio_f64 mf
      = PrimFloat.div (float_of_int step1_keep) (float_of_int final_selected) ∧
    (workflow_steps = 2 →
     final_selected = step2_keep ∧
     step2_efficiency m = 1%Q ∧ step2_efficiency_f64 mf = PrimFloat.one) ∧
    (workflow_steps = 3 →
     final_selected = step3_keep ∧
     step2_efficiency m = (inject_Z step3_keep / inject_Z step2_keep)%Q ∧
     step2_efficiency_f64 mf
       = PrimFloat.div (float_of_int step3_keep) (float_of_int step2_keep)).
Proof.
  intros H1 H2 H3 Hw final_selected.
  pose proof (inject_Z_nonzero step1_keep ltac:(lia)) as N1.
  pose proof (inject_Z_nonzero step2_keep ltac:(lia)) as N2.
  pose proof (inject_Z_nonzero step3_keep ltac:(lia)) as N3.
  unfold calculate_workflow_efficiency, calculate_workflow_efficiency_f64,
    true_div, true_div_f64, final_selected.
  destruct Hw as [-> | ->].
  - rewrite !(decide_False (P := (2 = 3))) by lia.
    rewrite !decide_False by lia. simpl.
    eexists _, _. split; [reflexivity|]. split; [reflexivity|]. simpl.
    split; [field; auto|]. split; [field; auto|].
    do 6 (split; [reflexivity|]).
    split; [done | intros E; lia].
  - rewrite !(decide_True (P := (3 = 3))) by lia.
    rewrite !decide_False by lia. simpl.
    eexists _, _. split; [reflexivity|]. split; [reflexivity|]. simpl.
    split; [field; auto|]. split; [field; auto|].
    do 6 (split; [reflexivity|]).
    split; [intros E; lia | done].
Qed.

Lemma efficiency_identities_witness :
  let final_selected := if decide (3 = 3) then 6 else 48 in
  ∃ m mf,
    calculate_workflow_efficiency 96 48 6 3
      = ok m ∧
    calculate_workflow_efficiency_f64 96 48 6
      3 = ok mf ∧
    (step1_efficiency m * step2_efficiency m == overall_efficiency m)%Q ∧
    (reduction_ratio m * overall_efficiency m == 1)%Q ∧
    step1_efficiency m = (inject_Z 48 / inject_Z 96)%Q ∧
    step1_efficiency_f64 mf
      = PrimFloat.div (float_of_int 48) (float_of_int 96) ∧
    overall_efficiency m = (inject_Z final_selected / inject_Z 96)%Q ∧
    overall_efficiency_f64 mf
      = PrimFloat.div (float_of_int final_selected) (float_of_int 96) ∧
    reduction_ratio m = (inject_Z 96 / inject_Z final_selected)%Q ∧
    reduction_ratio_f64 mf
      = PrimFloat.div (float_of_int 96) (float_of_int final_selected) ∧
    (3 = 2 →
     final_selected = 48 ∧
     step2_efficiency m = 1%Q ∧ step2_efficiency_f64 mf = PrimFloat.one) ∧
    (3 = 3 →
     final_selected = 6 ∧
     step2_efficiency m = (inject_Z 6 / inject_Z 48)%Q ∧
     step2_efficiency_f64 mf
       = PrimFloat.div (float_of_int 6) (float_of_int 48)).
Proof.
  apply (efficiency_identities 96 48 6 3); [lia | lia | lia | by right].
Defined.

(** ** Criteria filter *)

Lemma take_indices_spec {A} (a : list A) (idx : list nat) :
  Forall (λ i, (i < length a)%nat) idx →
  ∃ r, take_indices a idx = ok r ∧ length r = length idx ∧
       ∀ k i, idx !! k = Some i → r !! k = a !! i.
Proof.
  intros Hin. unfold take_indices.
  destruct (mapM (λ i, a !! i) idx) as [r|] eqn:E.
  - exists r. split; [done|]. apply mapM_Some in E.
    split; [symmetry; by eapply Forall2_length|].
    intros k i Hk.
    destruct (Forall2_lookup_l _ _ _ _ _ E Hk) as (y & Hy & Hay).
    by rewrite Hy, Hay.
  - exfalso. assert (is_Some (mapM (λ i, a !! i) idx)) as [? ?]; [|congruence].
    apply mapM_is_Some. eapply Forall_impl; [exact Hin|].
    intros i Hi. by apply lookup_lt_is_Some.
Qed.

Lemma take_indices_inv {A} (a : list A) (idx : list nat) (r : list A) :
  take_indices a idx = ok r →
  length r = length idx ∧
  Forall (λ i, (i < length a)%nat) idx ∧
  ∀ k i, idx !! k = Some i → r !! k = a !! i.
Proof.
  unfold take_indices.
  destruct (mapM (λ i, a !! i) idx) as [r'|] eqn:E; [|discriminate].
  intros [= <-]. apply mapM_Some in E.
  split; [symmetry; by eapply Forall2_length|]. split.
  - apply Forall_forall. intros i Hi.
    apply list_elem_of_lookup in Hi as [k Hk].
    destruct (Forall2_lookup_l _ _ _ _ _ E Hk) as (y & _ & Hay).
    by eapply lookup_lt_Some.
  - intros k i Hk.
    destruct (Forall2_lookup_l _ _ _ _ _ E Hk) as (y & Hy & Hay).
    by rewrite Hy, Hay.
Qed.

Lemma take_indices_elem {A} (a : list A) (idx : list nat) (r : list A) :
  take_indices a idx = ok r → Forall (λ v, v ∈ a) r.
Proof.
  intros H. apply take_indices_inv in H as (Hlen & _ & Hlk).
  apply Forall_forall. intros v Hv.
  apply list_elem_of_lookup in Hv as [k Hk].
  destruct (lookup_lt_is_Some_2 idx k) as [i Hi].
  { rewrite <- Hlen. by eapply lookup_lt_Some. }
  rewrite (Hlk k i Hi) in Hk. apply list_elem_of_lookup. eauto.
Qed.

Lemma andb_mask_all_true (mask : list bool) (n : nat) :
  length mask = n → zip_with andb (replicate n true) mask = mask.
Proof.
  revert n. induction mask as [|b mask IH]; intros [|n] Hn; simpl in *;
    try done. f_equal. apply IH. lia.
Qed.

Lemma lookup_reflect (b : bool) (P : Prop) :
  (b = true ↔ P) →
  (Some b = Some true ↔ P) ∧ (Some b = Some false ↔ ¬ P).
Proof.
  intros H. destruct b; (split; split); intros; try reflexivity;
    try discriminate; intuition discriminate.
Qed.

Lemma eps_pass (v thresh d : Q) :
  (Qabs d < eps)%Q → (v == thresh + d)%Q → (Qabs (v - thresh) < eps)%Q.
Proof.
  intros Hd Hv. assert (v - thresh == d)%Q as -> by (rewrite Hv; ring). done.
Qed.

Lemma eps_fail (v thresh d : Q) :
  (eps <= Qabs d)%Q → (v == thresh + d)%Q → ¬ (Qabs (v - thresh) < eps)%Q.
Proof.
  intros Hd Hv. assert (v - thresh == d)%Q as -> by (rewrite Hv; ring).
  by apply Qle_not_lt.
Qed.

(** C7: with a single [=] criterion on a column of the table, the row at
    position [k] of the mask passes exactly when the distance of its value to
    the threshold is below 1e-10; a value at threshold +/- 1e-11 passes and a
    value at threshold +/- 1e-9 does not. *)
Theorem equality_operator_is_epsilon_equality
    (df : frame) (crit_col : string) (col : list Q) (thresh : Q)
    (indices : list nat) :
  df_columns df !! crit_col = Some col →
  Forall (λ i, (i < length col)%nat) indices →
  ∃ mask,
    apply_criteria_filter df [(crit_col, "=", thresh)] indices = ok mask ∧
    length mask = length indices ∧
    ∀ k i v, indices !! k = Some i → col !! i = Some v →
      (mask !! k = Some true ↔ (Qabs (v - thresh) < eps)%Q) ∧
      (mask !! k = Some false ↔ ¬ (Qabs (v - thresh) < eps)%Q) ∧
      ((v == thresh + eleventh)%Q ∨ (v == thresh - eleventh)%Q →
         mask !! k = Some true) ∧
      ((v == thresh + ninth)%Q ∨ (v == thresh - ninth)%Q →
         mask !! k = Some false).
Proof.
  intros Hcol Hin.
  destruct (take_indices_spec col indices Hin) as (cv & Hcv & Hlen & Hlk).
  exists (map (λ v, Qltb (Qabs (v - thresh)) eps) cv).
  split.
  { unfold apply_criteria_filter, criteria_loop. rewrite Hcol, Hcv. simpl.
    unfold compare. simpl. unfold ok. do 2 f_equal.
    apply andb_mask_all_true. by rewrite length_map. }
  split; [by rewrite length_map|].
  intros k i v Hk Hv.
  assert (Hm : map (λ v, Qltb (Qabs (v - thresh)) eps) cv !! k
               = Some (Qltb (Qabs (v - thresh)) eps)).
  { rewrite list_lookup_fmap, (Hlk k i Hk), Hv. done. }
  rewrite Hm.
  destruct (lookup_reflect _ _ (Qltb_lt (Qabs (v - thresh)) eps)) as [Ht Hf].
  split; [exact Ht|]. split; [exact Hf|]. split.
  - intros [H|H]; apply Ht.
    + by apply (eps_pass v thresh eleventh).
    + apply (eps_pass v thresh (- eleventh)); [done|]. rewrite H. ring.
  - intros [H|H]; apply Hf.
    + by apply (eps_fail v thresh ninth).
    + apply (eps_fail v thresh (- ninth)); [done|]. rewrite H. ring.
Qed.

Lemma equality_operator_is_epsilon_equality_witness :
  ∃ mask,
    apply_criteria_filter titer_table [("Titer", "=", 5%Q)] [0; 1; 2; 3]%nat
      = ok mask ∧
    length mask = 4%nat ∧
    ∀ k i v, [0; 1; 2; 3]%nat !! k = Some i →
      [5 + eleventh; 5 - eleventh; 5 + ninth; 5 - ninth]%Q !! i = Some v →
      (mask !! k = Some true ↔ (Qabs (v - 5) < eps)%Q) ∧
      (mask !! k = Some false ↔ ¬ (Qabs (v - 5) < eps)%Q) ∧
      ((v == 5 + eleventh)%Q ∨ (v == 5 - eleventh)%Q →
         mask !! k = Some true) ∧
      ((v == 5 + ninth)%Q ∨ (v == 5 - ninth)%Q →
         mask !! k = Some false).
Proof.
  apply (equality_operator_is_epsilon_equality titer_table "Titer"
           [5 + eleventh; 5 - eleventh; 5 + ninth; 5 - ninth]%Q 5
           [0; 1; 2; 3]%nat).
  - reflexivity.
  - repeat constructor.
Defined.

Example epsilon_mask :
  apply_criteria_filter titer_table [("Titer", "=", 5%Q)] [0; 1; 2; 3]%nat
    = ok [true; true; false; false].
Proof. reflexivity. Qed.

Lemma compare_supported (op : string) (col_vals : list Q) (thresh : Q) :
  supported op →
  ∃ passed, compare op col_vals thresh = ok passed.
Proof.
  intros [-> | [-> | ->]]; unfold compare; simpl; eauto.
Qed.

Lemma compare_unsupported (op : string) (col_vals : list Q) (thresh : Q) :
  ¬ supported op →
  compare op col_vals thresh = raise (UnsupportedOperator op).
Proof.
  intros Hop. unfold compare, supported in *.
  repeat case_decide; tauto.
Qed.

Lemma criteria_loop_unsupported (df : frame) (indices : list nat)
    (criteria_settings : list criterion) :
  row_positions df indices →
  ∀ filter_mask,
  (∃ crit_col op thresh, (crit_col, op, thresh) ∈ criteria_settings ∧
     is_Some (df_columns df !! crit_col) ∧ ¬ supported op) →
  ∃ crit_col op thresh, (crit_col, op, thresh) ∈ criteria_settings ∧
     is_Some (df_columns df !! crit_col) ∧ ¬ supported op ∧
     criteria_loop df criteria_settings indices filter_mask
       = raise (UnsupportedOperator op).
Proof.
  intros Hrows.
  induction criteria_settings as [|[[c o] t] rest IH]; intros filter_mask.
  - intros (? & ? & ? & Hin & _). by apply elem_of_nil in Hin.
  - intros (c' & o' & t' & Hin & Hpres & Hbad). simpl.
    destruct (df_columns df !! c) as [vals|] eqn:Hc.
    + destruct (take_indices_spec vals indices (Hrows _ _ Hc))
        as (cv & -> & _ & _). simpl.
      destruct (decide (supported o)) as [Hs|Hs].
      * destruct (compare_supported o cv t Hs) as [passed ->]. simpl.
        destruct (IH (zip_with andb filter_mask passed))
          as (c1 & o1 & t1 & Hin1 & ? & ? & ?).
        { exists c', o', t'. split; [|done].
          apply elem_of_cons in Hin as [[= -> -> ->]|Hin]; [done|exact Hin]. }
        exists c1, o1, t1. repeat split; try done. by right.
      * rewrite (compare_unsupported o cv t Hs). simpl.
        exists c, o, t. split; [by left|]. split; [by rewrite Hc|]. done.
    + destruct (IH filter_mask) as (c1 & o1 & t1 & Hin1 & ? & ? & ?).
      { exists c', o', t'. split; [|done].
        apply elem_of_cons in Hin as [[= -> -> ->]|Hin]; [|exact Hin].
        rewrite Hc in Hpres. by destruct Hpres. }
      exists c1, o1, t1. repeat split; try done. by right.
Qed.

(** C8, as the specification words it, fails for an index sequence that
    leaves the table: the column is indexed on line 40, before the operator
    is looked at, and numpy's IndexError is what the caller sees, where the
    same criterion on row positions raises the unsupported-operator error. *)
Lemma index_outside_table_hides_the_operator :
  ¬ supported "!=" ∧
  is_Some (df_columns titer_table !! "Titer") ∧
  df_len titer_table = 4%nat ∧
  apply_criteria_filter titer_table [("Titer", "!=", 5%Q)] [0; 4]%nat
    = raise IndexError ∧
  apply_criteria_filter titer_table [("Titer", "!=", 5%Q)] [0; 4]%nat
    ≠ raise (UnsupportedOperator "!=") ∧
  apply_criteria_filter titer_table [("Titer", "!=", 5%Q)] [0; 3]%nat
    = raise (UnsupportedOperator "!=").
Proof.
  split; [intros [H | [H | H]]; discriminate H|].
  split; [by eexists|]. split; [reflexivity|].
  split; [reflexivity|]. split; [|reflexivity].
  intros H. vm_compute in H. discriminate H.
Qed.

(** C8, amended: whenever some criterion names a column of the table and
    carries an operator outside >=, <=, =, the filter raises the
    unsupported-operator error for such a criterion, whatever the other
    criteria and whatever row positions of the table are asked for; a
    criterion whose column is not in the table is skipped, unsupported
    operator or not, and adds no constraint. *)
Theorem unsupported_operator_raises
    (df : frame) (criteria_settings : list criterion) (indices : list nat)
    (crit_col op : string) (thresh : Q) :
  row_positions df indices →
  (crit_col, op, thresh) ∈ criteria_settings →
  is_Some (df_columns df !! crit_col) →
  ¬ supported op →
  (∃ c o t, (c, o, t) ∈ criteria_settings ∧
     is_Some (df_columns df !! c) ∧ ¬ supported o ∧
     apply_criteria_filter df criteria_settings indices
       = raise (UnsupportedOperator o)) ∧
  (∀ c o t rest, df_columns df !! c = None →
     apply_criteria_filter df ((c, o, t) :: rest) indices
       = apply_criteria_filter df rest indices).
Proof.
  intros Hrows Hin Hpres Hbad. split.
  - destruct criteria_settings as [|c0 rest].
    + by apply elem_of_nil in Hin.
    + unfold apply_criteria_filter.
      apply criteria_loop_unsupported; [done|]. eauto 10.
  - intros c o t rest Hc. unfold apply_criteria_filter. simpl. rewrite Hc.
    by destruct rest.
Qed.

Lemma unsupported_operator_raises_witness :
  (∃ c o t, (c, o, t) ∈ [("Purity", "<=", 3%Q); ("Titer", ">", 5%Q)] ∧
     is_Some (df_columns titer_table !! c) ∧ ¬ supported o ∧
     apply_criteria_filter titer_table
       [("Purity", "<=", 3%Q); ("Titer", ">", 5%Q)] [0; 2]%nat
       = raise (UnsupportedOperator o)) ∧
  (∀ c o t rest, df_columns titer_table !! c = None →
     apply_criteria_filter titer_table ((c, o, t) :: rest) [0; 2]%nat
       = apply_criteria_filter titer_table rest [0; 2]%nat).
Proof.
  apply (unsupported_operator_raises titer_table
           [("Purity", "<=", 3%Q); ("Titer", ">", 5%Q)] [0; 2]%nat
           "Titer" ">" 5%Q).
  - intros col values Hcol. unfold titer_table in Hcol. simpl in Hcol.
    apply lookup_singleton_Some in Hcol as [_ <-].
    repeat constructor.
  - apply elem_of_cons; right. apply elem_of_cons; by left.
  - by eexists.
  - unfold supported. intros [H | [H | H]]; discriminate H.
Defined.

Example unsupported_operator_on_missing_column :
  apply_criteria_filter titer_table [("Purity", "!=", 3%Q)] [0; 2]%nat
    = ok [true; true].
Proof. reflexivity. Qed.

Example unsupported_operator_on_present_column :
  apply_criteria_filter titer_table
    [("Purity", "<=", 3%Q); ("Titer", ">", 5%Q)] [0; 2]%nat
    = raise (UnsupportedOperator ">").
Proof. reflexivity. Qed.

(** ** Configuration validation *)

Lemma validate_raises_iff (real_data : list Q)
    (step1_keep step2_keep step3_keep workflow_steps : Z) :
  (∃ e, validate real_data step1_keep step2_keep step3_keep workflow_steps
          = raise e ∧ configuration_error e)
  ↔ violated real_data step1_keep step2_keep step3_keep workflow_steps.
Proof.
  unfold validate, violated.
  repeat case_decide; split;
    solve [ intros _; eexists; split; [reflexivity|exact I]
          | intros (e & [=] & _)
          | intros; lia
          | intros; tauto ].
Qed.

Lemma validate_ok_iff (real_data : list Q)
    (step1_keep step2_keep step3_keep workflow_steps : Z) :
  validate real_data step1_keep step2_keep step3_keep workflow_steps = ok ()
  ↔ ¬ violated real_data step1_keep step2_keep step3_keep workflow_steps.
Proof.
  unfold validate, violated.
  repeat case_decide; split;
    solve [ intros [=] | intros; lia | intros; tauto | done ].
Qed.

(** C4: the simulator raises a configuration error exactly when one of the
    four preconditions is violated, and then no trial has run (the random
    source is returned untouched).  With the other preconditions met,
    [step1_keep = len real_data] passes the validation and
    [step1_keep = len real_data + 1] raises; [step2_keep > step1_keep] raises
    whatever [workflow_steps] is; [step3_keep > step2_keep] alone raises only
    for [workflow_steps = 3]. *)
Theorem configuration_is_validated_first
    (np_sqrt : Q → Q) (real_data : list Q) (df : frame)
    (top_x_percent step1_keep step2_keep step3_keep : Z) (correlation : Q)
    (n_rep : Z) (method : string) (criteria_settings : list criterion)
    (apply_criteria : bool) (workflow_steps : Z) (g : rng) :
  let run s1 s2 s3 w :=
    simulate_workflow np_sqrt real_data df top_x_percent s1 s2 s3
      correlation n_rep method criteria_settings apply_criteria w g in
  (violated real_data step1_keep step2_keep step3_keep workflow_steps
   ↔ ∃ e, (run step1_keep step2_keep step3_keep workflow_steps).1 = raise e
          ∧ configuration_error e) ∧
  (violated real_data step1_keep step2_keep step3_keep workflow_steps →
   (run step1_keep step2_keep step3_keep workflow_steps).2 = g) ∧
  (0 < len real_data → step2_keep ≤ len real_data →
   (workflow_steps = 3 → step3_keep ≤ step2_keep) →
   validate real_data (len real_data) step2_keep step3_keep workflow_steps
     = ok () ∧
   run (len real_data + 1) step2_keep step3_keep workflow_steps
     = (raise (Step1ExceedsData (len real_data + 1) (len real_data)), g)) ∧
  (step2_keep > step1_keep →
   ∃ e, run step1_keep step2_keep step3_keep workflow_steps = (raise e, g)
        ∧ configuration_error e) ∧
  (0 < len real_data → step1_keep ≤ len real_data →
   step2_keep ≤ step1_keep → step3_keep > step2_keep →
   (validate real_data step1_keep step2_keep step3_keep workflow_steps = ok ()
    ↔ workflow_steps ≠ 3)).
Proof.
  intros run.
  assert (Hbad : ∀ s1 s2 s3 w, violated real_data s1 s2 s3 w →
            ∃ e, run s1 s2 s3 w = (raise e, g) ∧ configuration_error e).
  { intros s1 s2 s3 w Hv. apply validate_raises_iff in Hv as (e & He & Hc).
    exists e. split; [|done]. unfold run, simulate_workflow.
    rewrite He. reflexivity. }
  assert (Hgood : ∀ e, ¬ violated real_data step1_keep step2_keep step3_keep
                      workflow_steps →
            (run step1_keep step2_keep step3_keep workflow_steps).1 = raise e →
            ¬ configuration_error e).
  { intros e Hv. apply validate_ok_iff in Hv.
    unfold run, simulate_workflow. rewrite Hv. simpl.
    destruct (decide (method = "lognormal")).
    - unfold fit_lognormal. case_decide; simpl.
      + intros [= <-]. tauto.
      + destruct (percentile _ _) as [e'|c] eqn:Hp; simpl.
        * intros [= <-]. unfold percentile in Hp.
          repeat case_match; inversion Hp; tauto.
        * destruct (trials _ _ _ _ _ _ _ _ _ _ _ _ _ _ _ _ _) as [[? ?] ?].
          discriminate.
    - simpl. destruct (percentile _ _) as [e'|c] eqn:Hp; simpl.
      + intros [= <-]. unfold percentile in Hp.
        repeat case_match; inversion Hp; tauto.
      + destruct (trials _ _ _ _ _ _ _ _ _ _ _ _ _ _ _ _ _) as [[? ?] ?].
        discriminate. }
  split; [|split; [|split; [|split]]].
  - split.
    + intros Hv. destruct (Hbad _ _ _ _ Hv) as (e & -> & Hc). eauto.
    + intros (e & He & Hc).
      destruct (decide (violated real_data step1_keep step2_keep step3_keep
                          workflow_steps)) as [|Hn]; [done|].
      exfalso. by apply (Hgood e Hn He).
  - intros Hv. by destruct (Hbad _ _ _ _ Hv) as (e & -> & Hc).
  - intros Hne H2 H3. split.
    + apply validate_ok_iff. unfold violated. intros [?|[?|[?|[? ?]]]];
        try done; lia.
    + unfold run, simulate_workflow, validate.
      destruct (decide (len real_data = 0)); [lia|].
      destruct (decide (len real_data + 1 > len real_data)); [|lia].
      reflexivity.
  - intros H. apply Hbad. unfold violated. tauto.
  - intros Hne H1 H2 H3. rewrite validate_ok_iff. unfold violated. split.
    + intros Hn ->. apply Hn. tauto.
    + intros Hw [?|[?|[?|[? ?]]]]; try done; lia.
Qed.

(** ** Sensitivity driver *)

Lemma scaled_half (b : Z) : scaled b (1 # 2) = b ÷ 2.
Proof. unfold scaled, int_of_float. simpl. by rewrite Z.mul_1_r. Qed.

Lemma scaled_three_quarters (b : Z) : scaled b (3 # 4) = (b * 3) ÷ 4.
Proof. reflexivity. Qed.

Lemma scaled_five_quarters (b : Z) : scaled b (5 # 4) = (b * 5) ÷ 4.
Proof. reflexivity. Qed.

Lemma scaled_three_halves (b : Z) : scaled b (3 # 2) = (b * 3) ÷ 2.
Proof. reflexivity. Qed.

Lemma param_ranges_truncated (base_settings : Settings.t) :
  param_ranges base_settings =
    [ ("step1_keep", truncated_candidates (Settings.step1_keep base_settings));
      ("step2_keep", truncated_candidates (Settings.step2_keep base_settings));
      ("top_x_percent", [1; 2; 5; 10; 15]) ].
Proof.
  unfold param_ranges, truncated_candidates.
  by rewrite !scaled_half, !scaled_three_quarters, !scaled_five_quarters,
    !scaled_three_halves.
Qed.

Section SweepShape.

Variables (np_sqrt : Q → Q) (results : list Q) (df : frame).
Variables (base_settings : Settings.t) (correlation : Q).

Lemma sweep_all_values (ranges : list (string * list Z)) :
  ∀ sensitivity_results g,
    map (λ entry, (entry.1, values entry.2))
        (sweep_all np_sqrt results df base_settings correlation
           ranges sensitivity_results g).1
      = (map (λ entry, (entry.1, values entry.2)) sensitivity_results
         ++ ranges)%list.
Proof.
  induction ranges as [|[name vals] rest IH]; intros acc g; simpl.
  - by rewrite app_nil_r.
  - destruct (probe_all _ _ _ _ _ _ _ _ _) as [ps g'].
    rewrite IH, map_app. simpl. by rewrite <- app_assoc.
Qed.

End SweepShape.

(** C6, as the code has it: the sweep reports, for [step1_keep] and for
    [step2_keep], the five candidates obtained from the baseline value by the
    factors 0.5, 0.75, 1, 1.25 and 1.5 with the fraction cut off (truncation
    toward zero, Python's [int]), and for [top_x_percent] the five values
    1, 2, 5, 10, 15 whatever the baseline is. *)
Theorem sweep_candidates_are_truncated
    (np_sqrt : Q → Q) (results : list Q) (df : frame)
    (settings : Settings.t) (correlations : list Q) (g : rng) :
  map (λ entry, (entry.1, values entry.2))
      (run_sensitivity_analysis np_sqrt results df settings correlations g).1
  = [ ("step1_keep", truncated_candidates (Settings.step1_keep settings));
      ("step2_keep", truncated_candidates (Settings.step2_keep settings));
      ("top_x_percent", [1; 2; 5; 10; 15]) ].
Proof.
  unfold run_sensitivity_analysis.
  rewrite sweep_all_values. simpl. apply param_ranges_truncated.
Qed.

(** C6, as the specification words it, fails: for a baseline of 3 the sweep
    tests 1, 2, 3, 3, 4, while the multiples 1.5, 2.25, 3, 3.75, 4.5 rounded
    to integers are 2, 2, 3, 4, 4; the candidate for 1.25 x 3 = 3.75 is 3,
    which is further than one half from it. *)
Lemma sweep_candidates_are_not_rounded :
  let settings := Settings.Make 2 3 3 3 "lognormal" [] false 3 in
  (param_ranges settings).*2 !! 0%nat = Some [1; 2; 3; 3; 4] ∧
  rounded_candidates 3 = [2; 2; 3; 4; 4] ∧
  (param_ranges settings).*2 !! 0%nat ≠ Some (rounded_candidates 3) ∧
  (1 # 2 < Qabs (inject_Z 3 * (5 # 4) - inject_Z 3))%Q.
Proof. repeat split; vm_compute; congruence. Qed.

(** ** Ranking *)

Lemma key_le_spec (p q : Q * nat) :
  key_le p q ↔ (p.1 < q.1)%Q ∨ ((p.1 == q.1)%Q ∧ (p.2 ≤ q.2)%nat).
Proof.
  unfold key_le.
  rewrite orb_true_iff, andb_true_iff, Qltb_lt, Qleb_le, Nat.leb_le.
  split.
  - intros [H|[H1 H2]]; [by left|].
    destruct (Qlt_le_dec p.1 q.1) as [Hlt|Hge]; [by left|].
    right. split; [by apply Qle_antisym|done].
  - intros [H|[H1 H2]]; [by left|]. right. split; [|done].
    rewrite H1. apply Qle_refl.
Qed.


Global Instance key_le_trans : Transitive key_le.
Proof.
  intros x y z. rewrite !key_le_spec.
  intros [Hxy|[Hxy Hi]] [Hyz|[Hyz Hj]].
  - left. by eapply Qlt_trans.
  - left. by rewrite <- Hyz.
  - left. by rewrite Hxy.
  - right. split; [by rewrite Hxy | lia].
Qed.

Global Instance key_le_total : Total key_le.
Proof.
  intros x y. rewrite !key_le_spec.
  destruct (Q_dec x.1 y.1) as [[H|H]|H].
  - left. by left.
  - right. by left.
  - destruct (decide (x.2 ≤ y.2)%nat).
    + left. by right.
    + right. right. split; [by symmetry | lia].
Qed.


(** Equal values are ranked in the order of their positions. *)
Example argsort_ties :
  argsort [7; 7; 7]%Q = [0; 1; 2]%nat ∧
  argsort [7; 3; 7; 3; 1]%Q = [4; 1; 3; 0; 2]%nat.
Proof. split; vm_compute; reflexivity. Qed.

Lemma argsort_Permutation (a : list Q) : argsort a ≡ₚ seq 0 (length a).
Proof.
  unfold argsort. rewrite merge_sort_Permutation.
  unfold keyed. by rewrite snd_zip by (by rewrite length_seq).
Qed.


Lemma py_tail_length {A} (k : Z) (a : list A) :
  0 < k → length (py_tail k a) = Nat.min (Z.to_nat k) (length a).
Proof.
  intros Hk. unfold py_tail. rewrite decide_True by done.
  rewrite length_drop. lia.
Qed.

Lemma py_tail_suffix {A} (k : Z) (a : list A) :
  ∃ n, py_tail k a = drop n a.
Proof. unfold py_tail. case_decide; eauto. Qed.


(** ** The loop body, step by step *)

Lemma bind_Normal {A B} (m : body A) (k : A → body B) (g g' : rng) (b : B) :
  (m ≫= k) g = (Normal b, g') →
  ∃ a g1, m g = (Normal a, g1) ∧ k a g1 = (Normal b, g').
Proof.
  unfold mbind, body_bind. destruct (m g) as [[e| |a] g1]; try discriminate.
  eauto.
Qed.

Lemma call_Normal {A} (m : rng → except A * rng) (g g' : rng) (a : A) :
  call m g = (Normal a, g') → m g = (ok a, g').
Proof.
  unfold call. destruct (m g) as [[e|a'] g1]; [discriminate|].
  by intros [= -> ->].
Qed.

Lemma eval_Normal {A} (m : except A) (g g' : rng) (a : A) :
  eval m g = (Normal a, g') → m = ok a ∧ g' = g.
Proof.
  unfold eval, call. destruct m as [e|a']; [discriminate|].
  by intros [= -> ->].
Qed.

Lemma ret_Normal {A} (a b : A) (g g' : rng) :
  (mret a : body A) g = (Normal b, g') → b = a ∧ g' = g.
Proof. unfold mret, body_ret. by intros [= -> ->]. Qed.

Lemma generate_samples_ok (data : list Q) (size : Z) (method : string)
    (fitted_model : option fitted) (g g' : rng) (samples : list Q) :
  generate_samples data size method fitted_model g = (ok samples, g') →
  0 ≤ size ∧ samples = next_values g (Z.to_nat size) ∧
  g' = advance g (Z.to_nat size).
Proof.
  unfold generate_samples.
  destruct (sample_request _ _ _ _) as [e|d] eqn:Hreq; [discriminate|].
  assert (draw_size d = size) as Hsz.
  { unfold sample_request in Hreq. repeat case_decide; try discriminate.
    - destruct fitted_model; simpl in Hreq.
      + by injection Hreq as <-.
      + destruct (fit_lognormal _); simpl in Hreq; [discriminate|].
        by injection Hreq as <-.
    - by injection Hreq as <-. }
  unfold run_draw. rewrite Hsz.
  destruct (negb (estimable d)); [discriminate|].
  case_decide; [discriminate|].
  intros [= <- <-]. split; [lia|done].
Qed.

Lemma next_values_length (g : rng) (k : nat) : length (next_values g k) = k.
Proof. unfold next_values. by rewrite length_map, length_seq. Qed.

Ltac body_inv :=
  repeat match goal with
  | H : (_ ≫= _) _ = (Normal _, _) |- _ =>
      apply bind_Normal in H as (? & ? & ? & H)
  | H : call _ _ = (Normal _, _) |- _ => apply call_Normal in H
  | H : eval _ _ = (Normal _, _) |- _ => apply eval_Normal in H as [H ?]
  | H : mret _ _ = (Normal _, _) |- _ => apply ret_Normal in H as [? ?]
  | H : continue _ = (Normal _, _) |- _ => discriminate H
  | H : (if ?c then _ else _) _ = (Normal _, _) |- _ => destruct c eqn:?
  end.

Section Stages.

Variable np_sqrt : Q → Q.
Variables (real_data : list Q) (df : frame).
Variables (step1_keep step2_keep step3_keep : Z) (correlation : Q).
Variables (method : string) (criteria_settings : list criterion).
Variables (apply_criteria : bool) (workflow_steps : Z).
Variables (fitted_model : option fitted) (cutoff : Q).

Lemma select_step1_Normal (g g1 : rng) (s1 : stage1) :
  select_step1 real_data df step1_keep method criteria_settings
    apply_criteria fitted_model g = (Normal s1, g1) →
  g1 = advance g (length real_data) ∧
  (if apply_criteria then assay_f s1 = next_values g (length real_data)
   else step1_keep ≤ len (assay_f s1)) ∧
  top1_idx s1 = py_tail step1_keep (argsort (assay_f s1)) ∧
  take_indices (assay_f s1) (top1_idx s1) = ok (top1_f s1).
Proof.
  unfold select_step1. intros H. body_inv; subst; simpl.
  all: match goal with
       | H : generate_samples _ _ _ _ _ = _ |- _ =>
           apply generate_samples_ok in H as (_ & -> & ->)
       end.
  all: unfold len in *; rewrite ?Nat2Z.id in *.
  all: destruct apply_criteria; try discriminate.
  all: repeat split; try done; lia.
Qed.

Lemma select_step2_Normal (s1 : stage1) (g1 g2 : rng) (s2 : stage2) :
  select_step2 np_sqrt real_data step1_keep step2_keep correlation method
    fitted_model s1 g1 = (Normal s2, g2) →
  0 ≤ step1_keep ∧
  g2 = advance g1 (Z.to_nat step1_keep) ∧
  noise1 s2 = next_values g1 (Z.to_nat step1_keep) ∧
  mix np_sqrt correlation (top1_f s1) (noise1 s2) = ok (assay_g s2) ∧
  step2_keep ≤ len (assay_g s2) ∧
  top2_idx s2 = py_tail step2_keep (argsort (assay_g s2)) ∧
  take_indices (top1_f s1) (top2_idx s2) = ok (top2_f s2).
Proof.
  unfold select_step2. intros H. body_inv; subst; simpl.
  match goal with
  | H : generate_samples _ _ _ _ _ = _ |- _ =>
      apply generate_samples_ok in H as (? & -> & ->)
  end.
  repeat split; try done. lia.
Qed.

Lemma select_final_Normal (s1 : stage1) (s2 : stage2) (g2 g3 : rng)
    (fin : final) :
  select_final np_sqrt real_data step2_keep step3_keep correlation method
    workflow_steps fitted_model s1 s2 g2 = (Normal fin, g3) →
  final_idx fin = py_tail step3_keep (argsort (final_assay fin)) ∧
  (if decide (workflow_steps = 3)
   then mix np_sqrt correlation (top2_f s2)
          (next_values g2 (Z.to_nat step2_keep)) = ok (final_assay fin) ∧
        step3_keep ≤ len (final_assay fin) ∧
        take_indices (top2_f s2) (final_idx fin) = ok (final_scores fin)
   else final_assay fin = assay_g s2 ∧
        take_indices (top1_f s1) (final_idx fin) = ok (final_scores fin)).
Proof.
  unfold select_final. intros H.
  destruct (decide (workflow_steps = 3)); body_inv; subst; simpl.
  - match goal with
    | H : generate_samples _ _ _ _ _ = _ |- _ =>
        apply generate_samples_ok in H as (? & -> & ->)
    end.
    repeat split; try done. lia.
  - done.
Qed.


End Stages.

(** ** Stage 2 *)










(** The stage-2 selection of the trial on [six_draws]: noise 3, 1, 2, 6 on
    the stage-1 values 4, 5, 7, 9 with correlation 3/5 gives 4.8, 3.8, 5.8,
    10.2; positions 2 and 3 survive and carry the stage-1 values 7 and 9. *)
Example stage2_on_six_draws :
  (select_step2 sqrt_of_square six_clones 4 2 (3 # 5) "lognormal" None
     six_stage1 (advance six_draws 6)).1 = Normal six_stage2.
Proof. vm_compute. reflexivity. Qed.

(** ** Final selection and success count *)

Lemma count_ge_bounds (scores : list Q) (cutoff : Q) :
  0 ≤ count_ge scores cutoff ≤ len scores.
Proof.
  unfold count_ge, len.
  pose proof (length_filter (λ v, Qleb cutoff v = true) scores). lia.
Qed.




(** ** Aggregation *)

Section Aggregation.

Variable np_sqrt : Q → Q.
Variables (real_data : list Q) (df : frame).
Variables (step1_keep step2_keep step3_keep : Z) (correlation : Q).
Variables (method : string) (criteria_settings : list criterion).
Variables (apply_criteria : bool) (workflow_steps : Z).
Variables (fitted_model : option fitted) (cutoff : Q).

(** The loop adds to [success_counts] the counts of the trials that ran to the
    end, at most one per iteration, and to [success_count] the number of those
    equal to [step3_keep]. *)
Lemma trials_tally (n : nat) :
  ∀ success_count success_counts g,
  ∃ new g',
    trials np_sqrt real_data df step1_keep step2_keep step3_keep correlation
      method criteria_settings apply_criteria workflow_steps fitted_model
      cutoff n success_count success_counts g
    = (success_count + fully_successful step3_keep new,
       success_counts ++ new, g') ∧
    (length new ≤ n)%nat.
Proof.
  induction n as [|n IH]; intros sc scs g.
  - exists [], g. simpl. split; [|lia].
    unfold fully_successful, len. simpl. by rewrite Z.add_0_r, app_nil_r.
  - simpl. destruct (trial _ _ _ _ _ _ _ _ _ _ _ _ _ _) as [[e| |[[[? ?] ?] c]] g1].
    + destruct (IH sc scs g1) as (new & g' & -> & Hn).
      exists new, g'. split; [done|lia].
    + destruct (IH sc scs g1) as (new & g' & -> & Hn).
      exists new, g'. split; [done|lia].
    + destruct (IH (if decide (c = step3_keep) then sc + 1 else sc)
                  (scs ++ [c]) g1) as (new & g' & -> & Hn).
      exists (c :: new), g'. split; [|simpl; lia].
      rewrite <- app_assoc. simpl. f_equal. f_equal.
      unfold fully_successful, len. rewrite filter_cons.
      case_decide; simpl; lia.
Qed.

End Aggregation.

Lemma np_sort_length (a : list Q) : length (np_sort a) = length a.
Proof. unfold np_sort. by rewrite merge_sort_Permutation. Qed.

Lemma percentile_defined (a : list Q) (q : Z) :
  0 < len a → 0 ≤ q ≤ 100 → ∃ c, percentile a (inject_Z q) = ok c.
Proof.
  intros Ha Hq. unfold percentile.
  assert (Qltb (inject_Z q) 0 = false) as ->.
  { destruct (Qltb (inject_Z q) 0) eqn:E; [|done]. apply Qltb_lt in E.
    change 0%Q with (inject_Z 0) in E. rewrite <- Zlt_Qlt in E. lia. }
  assert (Qltb 100 (inject_Z q) = false) as ->.
  { destruct (Qltb 100 (inject_Z q)) eqn:E; [|done]. apply Qltb_lt in E.
    change 100%Q with (inject_Z 100) in E. rewrite <- Zlt_Qlt in E. lia. }
  cbv zeta. unfold orb. rewrite np_sort_length.
  set (m := Z.of_nat (length a) - 1).
  set (pos := (inject_Z q / 100 * inject_Z m)%Q).
  assert (Hm : 0 ≤ m) by (unfold m, len in *; lia).
  assert (Hlo : 0 ≤ Qfloor pos).
  { change 0 with (Qfloor (inject_Z 0)) at 1. apply Qfloor_resp_le.
    unfold pos. apply Qmult_le_0_compat.
    - apply Qle_shift_div_l; [done|]. rewrite Qmult_0_l.
      change 0%Q with (inject_Z 0). rewrite <- Zle_Qle. lia.
    - change 0%Q with (inject_Z 0). rewrite <- Zle_Qle. lia. }
  assert (Hhi : Qfloor pos ≤ m).
  { rewrite <- (Qfloor_Z m). apply Qfloor_resp_le.
    unfold pos. rewrite <- (Qmult_1_l (inject_Z m)) at 2.
    apply Qmult_le_compat_r.
    - apply Qle_shift_div_r; [done|]. rewrite Qmult_1_l.
      change 100%Q with (inject_Z 100). rewrite <- Zle_Qle. lia.
    - change 0%Q with (inject_Z 0). rewrite <- Zle_Qle. lia. }
  destruct (lookup_lt_is_Some_2 (np_sort a) (Z.to_nat (Qfloor pos)))
    as [x ->].
  { rewrite np_sort_length. unfold m in *. lia. }
  destruct (lookup_lt_is_Some_2 (np_sort a)
              (Nat.min (S (Z.to_nat (Qfloor pos))) (length a - 1)))
    as [y ->].
  { rewrite np_sort_length. unfold m, len in *. lia. }
  eauto.
Qed.

Lemma fit_lognormal_defined (data : list Q) :
  (∃ x, x ∈ data ∧ (0 < x)%Q) → ∃ m, fit_lognormal data = ok m.
Proof.
  intros (x & Hx & Hpos). unfold fit_lognormal.
  case_decide as Hlen; [|eauto].
  apply length_zero_iff_nil in Hlen.
  assert (x ∈ filter (λ x, positive x = true) data) as Hin.
  { apply list_elem_of_filter. split; [by apply Qltb_lt|done]. }
  rewrite Hlen in Hin. by apply elem_of_nil in Hin.
Qed.

Lemma fully_successful_bounds (step3_keep : Z) (success_counts : list Z) :
  0 ≤ fully_successful step3_keep success_counts ≤ len success_counts.
Proof.
  unfold fully_successful, len.
  pose proof (length_filter (λ c, c = step3_keep) success_counts). lia.
Qed.

Lemma ratio_in_unit_interval (s n : Z) :
  0 ≤ s ≤ n → 0 < n → (0 <= inject_Z s / inject_Z n <= 1)%Q.
Proof.
  intros Hs Hn.
  assert (0 < inject_Z n)%Q as Hn'.
  { change 0%Q with (inject_Z 0). rewrite <- Zlt_Qlt. lia. }
  split.
  - apply Qle_shift_div_l; [done|]. rewrite Qmult_0_l.
    change 0%Q with (inject_Z 0). rewrite <- Zle_Qle. lia.
  - apply Qle_shift_div_r; [done|]. rewrite Qmult_1_l.
    rewrite <- Zle_Qle. lia.
Qed.

(** ** Sensitivity driver: failures *)

Arguments simulate_workflow : simpl never.
Arguments candidate_outcome : simpl never.

Section SweepOutcomes.

Variables (np_sqrt : Q → Q) (results : list Q) (df : frame).
Variables (base_settings : Settings.t) (correlation : Q).

Lemma probe_outcome (param_name : string) (param_value : Z) (g : rng) :
  candidate_outcome np_sqrt results df base_settings correlation
    param_name param_value
    (probe np_sqrt results df base_settings correlation
       param_name param_value g).1.
Proof.
  exists g. unfold probe.
  destruct (simulate_workflow _ _ _ _ _ _ _ _ _ _ _ _ _ _)
    as [[e|[[prob fm] counts]] g']; reflexivity.
Qed.

Lemma probe_all_outcomes (param_name : string) (param_values : list Z) :
  ∀ probabilities g,
  ∃ new,
    (probe_all np_sqrt results df base_settings correlation
       param_name param_values probabilities g).1 = probabilities ++ new ∧
    Forall2 (candidate_outcome np_sqrt results df base_settings correlation
               param_name) param_values new.
Proof.
  induction param_values as [|v rest IH]; intros acc g; simpl.
  - exists []. by rewrite app_nil_r.
  - pose proof (probe_outcome param_name v g) as Hv.
    destruct (probe _ _ _ _ _ _ _ _) as [p g1]. simpl in Hv.
    destruct (IH (acc ++ [p]) g1) as (new & -> & Hnew).
    exists (p :: new). split; [by rewrite <- app_assoc|].
    by constructor.
Qed.

Lemma sweep_all_outcomes (ranges : list (string * list Z)) :
  ∀ sensitivity_results g,
  ∃ new,
    (sweep_all np_sqrt results df base_settings correlation
       ranges sensitivity_results g).1 = sensitivity_results ++ new ∧
    Forall2 (λ range entry,
               entry.1 = range.1 ∧ values entry.2 = range.2 ∧
               Forall2 (candidate_outcome np_sqrt results df base_settings
                          correlation range.1)
                 range.2 (probabilities entry.2))
      ranges new.
Proof.
  induction ranges as [|[name vals] rest IH]; intros acc g; simpl.
  - exists []. by rewrite app_nil_r.
  - destruct (probe_all_outcomes name vals [] g) as (ps & Hps & Hout).
    destruct (probe_all _ _ _ _ _ _ _ _ _) as [ps' g1].
    simpl in Hps. subst ps'.
    destruct (IH (acc ++ [(name, Sweep vals ps)]) g1) as (new & -> & Hnew).
    exists ((name, Sweep vals ps) :: new).
    split; [by rewrite <- app_assoc|]. by constructor.
Qed.

End SweepOutcomes.

(** C5: the sweep returns normally for every input, with one entry for each
    of the three swept parameters; every entry has five candidates and five
    probabilities, one for each candidate in order, and the probability of a
    candidate is the one the simulator returned for it, or 0 when the
    simulator raised. *)
Theorem sweep_failures_become_zero
    (np_sqrt : Q → Q) (results : list Q) (df : frame)
    (settings : Settings.t) (correlations : list Q) (g : rng) :
  let correlation := default (1 # 2)%Q (head correlations) in
  let sensitivity_results :=
    (run_sensitivity_analysis np_sqrt results df settings correlations g).1 in
  sensitivity_results.*1 = ["step1_keep"; "step2_keep"; "top_x_percent"] ∧
  Forall (λ entry,
            length (values entry.2) = 5%nat ∧
            length (probabilities entry.2) = 5%nat ∧
            Forall2 (candidate_outcome np_sqrt results df settings
                       correlation entry.1)
              (values entry.2) (probabilities entry.2))
    sensitivity_results.
Proof.
  intros correlation sensitivity_results.
  unfold sensitivity_results, run_sensitivity_analysis. fold correlation.
  destruct (sweep_all_outcomes np_sqrt results df settings correlation
              (param_ranges settings) [] g) as (new & -> & Hnew).
  rewrite app_nil_l. unfold param_ranges in Hnew.
  apply Forall2_cons_inv_l in Hnew as (e1 & r1 & (N1 & V1 & O1) & Hnew & ->).
  apply Forall2_cons_inv_l in Hnew as (e2 & r2 & (N2 & V2 & O2) & Hnew & ->).
  apply Forall2_cons_inv_l in Hnew as (e3 & r3 & (N3 & V3 & O3) & Hnew & ->).
  apply Forall2_nil_inv_l in Hnew as ->.
  destruct e1 as [n1 [v1 p1]], e2 as [n2 [v2 p2]], e3 as [n3 [v3 p3]].
  cbn [fst snd values probabilities] in *. subst.
  split; [reflexivity|].
  pose proof (Forall2_length _ _ _ O1) as L1.
  pose proof (Forall2_length _ _ _ O2) as L2.
  pose proof (Forall2_length _ _ _ O3) as L3.
  cbn [length] in L1, L2, L3.
  apply Forall_cons. split; [cbn [fst snd values probabilities length]; auto|].
  apply Forall_cons. split; [cbn [fst snd values probabilities length]; auto|].
  apply Forall_cons. split; [cbn [fst snd values probabilities length]; auto|].
  constructor.
Qed.

(** A baseline of six clones kept out of six makes the candidate
    int(6 * 1.5) = 9 exceed the data; the simulator raises before any trial
    and the driver records 0. *)
Example failing_candidate_reports_zero :
  let settings := Settings.Make 50 6 3 2 "lognormal" [] true 3 in
  (param_ranges settings).*2 !! 0%nat = Some [3; 4; 6; 7; 9] ∧
  (simulate_workflow sqrt_of_square six_clones (Frame 6 ∅) 50 9 3 2 (3 # 5)
     1000 "lognormal" [] true 3 six_draws).1
  = raise (Step1ExceedsData 9 6) ∧
  probe sqrt_of_square six_clones (Frame 6 ∅) settings (3 # 5)
    "step1_keep" 9 six_draws = (0%Q, six_draws).
Proof. repeat split; vm_compute; reflexivity. Qed.

(** The boundaries of the validation on six clones. *)
Example validation_boundaries :
  validate six_clones 6 2 2 3 = ok () ∧
  validate six_clones 7 2 2 3 = raise (Step1ExceedsData 7 6) ∧
  validate six_clones 4 5 2 2 = raise (Step2ExceedsStep1 5 4) ∧
  validate six_clones 4 5 2 3 = raise (Step2ExceedsStep1 5 4) ∧
  validate six_clones 4 2 3 3 = raise (Step3ExceedsStep2 3 2) ∧
  validate six_clones 4 2 3 2 = ok () ∧
  validate [] 0 0 0 3 = raise NoValidData.
Proof. repeat split; reflexivity. Qed.

(** * Further properties of the code *)

(** ** Fitting and generation *)

Lemma positive_false (x : Q) : positive x = false ↔ (x <= 0)%Q.
Proof.
  unfold positive. pose proof (Qltb_lt 0 x) as H.
  destruct (Qltb 0 x); split; try done.
  - intros Hle. exfalso. apply (Qlt_not_le 0 x); [by apply H | done].
  - intros _. apply Qnot_lt_le. intros Hlt. apply H in Hlt. discriminate.
Qed.

Lemma filter_positive_nil (data : list Q) :
  filter (λ x, positive x = true) data = [] ↔ Forall (λ x, (x <= 0)%Q) data.
Proof.
  induction data as [|x data IH]; [by split|].
  rewrite filter_cons. destruct (decide (positive x = true)) as [Hx|Hx].
  - split; [done|]. intros H. apply Forall_cons in H as [Hle _].
    apply positive_false in Hle. congruence.
  - rewrite IH. apply not_true_is_false in Hx. apply positive_false in Hx.
    split; [by constructor | by intros [_ ?]%Forall_cons].
Qed.

Lemma filter_positive_idem (data : list Q) :
  filter (λ x, positive x = true) (filter (λ x, positive x = true) data)
    = filter (λ x, positive x = true) data.
Proof.
  induction data as [|x data IH]; [done|].
  rewrite filter_cons. case_decide; [|done].
  rewrite filter_cons, decide_True by done. by rewrite IH.
Qed.

Lemma filter_positive_app_nonpositive (extra data : list Q) :
  Forall (λ x, (x <= 0)%Q) extra →
  filter (λ x, positive x = true) (extra ++ data)
    = filter (λ x, positive x = true) data ∧
  filter (λ x, positive x = true) (data ++ extra)
    = filter (λ x, positive x = true) data.
Proof.
  intros H. apply filter_positive_nil in H.
  rewrite !filter_app, H. by rewrite app_nil_r.
Qed.

(** X1: [fit_lognormal] raises exactly on data without a strictly positive
    value; otherwise the model is fitted to the positive values alone, so that
    non-positive entries, wherever they stand, never change the result. *)
Theorem fit_lognormal_sees_positive_values_only (data : list Q) :
  (fit_lognormal data = raise NoPositiveData
   ↔ Forall (λ x, (x <= 0)%Q) data) ∧
  (∀ model, fit_lognormal data = ok model →
     model = LognormFit (filter (λ x, positive x = true) data)) ∧
  (∀ extra, Forall (λ x, (x <= 0)%Q) extra →
     fit_lognormal (extra ++ data) = fit_lognormal data ∧
     fit_lognormal (data ++ extra) = fit_lognormal data).
Proof.
  split; [|split].
  - rewrite <- filter_positive_nil. unfold fit_lognormal.
    destruct (filter _ data) eqn:E; simpl; split; done.
  - intros model. unfold fit_lognormal. case_decide; [done|].
    by intros [= <-].
  - intros extra Hextra.
    destruct (filter_positive_app_nonpositive extra data Hextra) as [Hl Hr].
    unfold fit_lognormal. by rewrite Hl, Hr.
Qed.

Lemma generate_samples_no_points (data : list Q) (size : Z)
    (method : string) (fitted_model : option fitted) (g : rng) :
  Forall (λ x, (x <= 0)%Q) data →
  generate_samples data size method fitted_model g = (raise NoValidPoints, g).
Proof.
  intros H. apply filter_positive_nil in H.
  unfold generate_samples, sample_request. by rewrite H.
Qed.

Lemma generate_samples_unknown_method (data : list Q) (size : Z)
    (method : string) (fitted_model : option fitted) (g : rng) :
  ¬ Forall (λ x, (x <= 0)%Q) data →
  method ≠ "lognormal" → method ≠ "kde" →
  generate_samples data size method fitted_model g
    = (raise UnsupportedMethod, g).
Proof.
  intros H Hl Hk. rewrite <- filter_positive_nil in H.
  unfold generate_samples, sample_request.
  destruct (filter _ data); [done|]. simpl.
  by rewrite !decide_False.
Qed.

(** X2: the check for usable data comes before the look at the method: data
    without a positive value raises the no-valid-points error whatever the
    method string is, and only data with a positive value lets an unknown
    method raise the unsupported-method error; neither draws a value. *)
Theorem generate_samples_error_order
    (data : list Q) (size : Z) (method : string)
    (fitted_model : option fitted) (g : rng) :
  (Forall (λ x, (x <= 0)%Q) data →
   generate_samples data size method fitted_model g
     = (raise NoValidPoints, g)) ∧
  (¬ Forall (λ x, (x <= 0)%Q) data →
   method ≠ "lognormal" → method ≠ "kde" →
   generate_samples data size method fitted_model g
     = (raise UnsupportedMethod, g)).
Proof.
  split.
  - apply generate_samples_no_points.
  - apply generate_samples_unknown_method.
Qed.

(** X3: for the lognormal method a model handed in is used as it is, and
    without one the model is fitted to the positive values of the data;
    handing in what [fit_lognormal] returns for the data therefore asks scipy
    for exactly the same draw as handing in nothing. *)
Theorem lognormal_model_is_reused
    (data : list Q) (size : Z) (model : fitted) :
  (∃ x, x ∈ data ∧ (0 < x)%Q) →
  sample_request data size "lognormal" (Some model)
    = ok (LognormRvs model size) ∧
  sample_request data size "lognormal" None
    = ok (LognormRvs (LognormFit (filter (λ x, positive x = true) data)) size) ∧
  (fit_lognormal data = ok model →
   sample_request data size "lognormal" (Some model)
     = sample_request data size "lognormal" None).
Proof.
  intros (x & Hx & Hpos).
  assert (Hne : filter (λ x, positive x = true) data ≠ []).
  { intros E. assert (x ∈ filter (λ x, positive x = true) data) as Hin.
    { apply list_elem_of_filter. split; [by apply Qltb_lt|done]. }
    rewrite E in Hin. by apply elem_of_nil in Hin. }
  assert (Hsome : sample_request data size "lognormal" (Some model)
                  = ok (LognormRvs model size)).
  { unfold sample_request. destruct (filter _ data); done. }
  assert (Hnone : sample_request data size "lognormal" None
    = ok (LognormRvs (LognormFit (filter (λ x, positive x = true) data))
            size)).
  { unfold sample_request, fit_lognormal. rewrite filter_positive_idem.
    destruct (filter (λ x, positive x = true) data) as [|y l]; done. }
  split; [done|]. split; [done|].
  intros Hfit. rewrite Hsome, Hnone.
  unfold fit_lognormal in Hfit. case_decide; [done|].
  by injection Hfit as <-.
Qed.

Lemma lognormal_model_is_reused_witness :
  sample_request six_clones 4 "lognormal" (Some (LognormFit six_clones))
    = ok (LognormRvs (LognormFit six_clones) 4) ∧
  sample_request six_clones 4 "lognormal" None
    = ok (LognormRvs
            (LognormFit (filter (λ x, positive x = true) six_clones)) 4) ∧
  (fit_lognormal six_clones = ok (LognormFit six_clones) →
   sample_request six_clones 4 "lognormal" (Some (LognormFit six_clones))
     = sample_request six_clones 4 "lognormal" None).
Proof.
  apply (lognormal_model_is_reused six_clones 4 (LognormFit six_clones)).
  exists 1%Q. split; [apply elem_of_cons; by left | reflexivity].
Defined.

(** ** Criteria filter: the mask *)

Lemma except_bind_ok {A B} (m : except A) (k : A → except B) (b : B) :
  m ≫= k = ok b → ∃ a, m = ok a ∧ k a = ok b.
Proof. destruct m as [e|a]; [discriminate|]. eauto. Qed.

Lemma except_bind_ret {A B} (a : A) (k : A → except B) : ok a ≫= k = k a.
Proof. reflexivity. Qed.

Lemma take_indices_raises {A} (a : list A) (idx : list nat) (i : nat) :
  i ∈ idx → (length a ≤ i)%nat → take_indices a idx = raise IndexError.
Proof.
  intros Hi Hge. unfold take_indices.
  destruct (mapM (λ i, a !! i) idx) as [r|] eqn:E; [|done].
  apply mapM_Some in E. apply list_elem_of_lookup in Hi as [k Hk].
  destruct (Forall2_lookup_l _ _ _ _ _ E Hk) as (y & _ & Hy).
  apply lookup_lt_Some in Hy. lia.
Qed.

Lemma compare_inv (op : string) (col_vals : list Q) (thresh : Q)
    (passed : list bool) :
  compare op col_vals thresh = ok passed →
  supported op ∧ length passed = length col_vals ∧
  ∀ k v, col_vals !! k = Some v →
    (passed !! k = Some true ↔ satisfies op thresh v).
Proof.
  unfold compare, supported, satisfies.
  destruct (decide (op = ">=")) as [->|H1];
    [|destruct (decide (op = "<=")) as [->|H2];
      [|destruct (decide (op = "=")) as [->|H3]; [|discriminate]]].
  all: intros [= <-]; split; [tauto|]; split; [by rewrite length_map|].
  all: intros k v Hv; rewrite list_lookup_fmap, Hv; simpl.
  - destruct (lookup_reflect _ _ (Qleb_le thresh v)) as [-> _].
    split; [tauto|]. intros [[_ ?]|[[? _]|[? _]]]; done.
  - destruct (lookup_reflect _ _ (Qleb_le v thresh)) as [-> _].
    split; [tauto|]. intros [[? _]|[[_ ?]|[? _]]]; done.
  - destruct (lookup_reflect _ _ (Qltb_lt (Qabs (v - thresh)) eps))
      as [-> _].
    split; [tauto|]. intros [[? _]|[[? _]|[_ ?]]]; done.
Qed.

Lemma andb_lookup (m p : list bool) (k : nat) :
  zip_with andb m p !! k = Some true
  ↔ m !! k = Some true ∧ p !! k = Some true.
Proof.
  rewrite lookup_zip_with_Some. split.
  - intros (x & y & Hxy & Hx & Hy). symmetry in Hxy.
    apply andb_true_iff in Hxy as [-> ->]. done.
  - intros [Hm Hp]. by exists true, true.
Qed.

Lemma row_passes_cons (df : frame) (crit_col op : string) (thresh : Q)
    (rest : list criterion) (i : nat) :
  row_passes df ((crit_col, op, thresh) :: rest) i
  ↔ (∀ col v, df_columns df !! crit_col = Some col → col !! i = Some v →
       satisfies op thresh v) ∧
    row_passes df rest i.
Proof.
  unfold row_passes. split.
  - intros H. split.
    + intros col v Hc Hv. eapply H; [by left|done|done].
    + intros c o t col v Hin. apply H. by right.
  - intros [Hhd Htl] c o t col v Hin Hc Hv.
    apply elem_of_cons in Hin as [[= -> -> ->]|Hin]; [by eapply Hhd|].
    by eapply Htl.
Qed.

(** The loop keeps the length of the mask and ands into it, row by row, the
    criteria that name a column. *)
Lemma criteria_loop_inv (df : frame) (indices : list nat)
    (criteria_settings : list criterion) :
  ∀ filter_mask mask,
  criteria_loop df criteria_settings indices filter_mask = ok mask →
  length filter_mask = length indices →
  length mask = length indices ∧
  ∀ k i, indices !! k = Some i →
    (mask !! k = Some true
     ↔ filter_mask !! k = Some true ∧ row_passes df criteria_settings i).
Proof.
  induction criteria_settings as [|[[c o] t] rest IH]; intros m0 mask Hrun Hlen.
  - injection Hrun as <-. split; [done|]. intros k i Hk.
    split; [|tauto]. intros H. split; [done|].
    intros ? ? ? ? ? Hin. by apply elem_of_nil in Hin.
  - simpl in Hrun. destruct (df_columns df !! c) as [vals|] eqn:Hc.
    + apply except_bind_ok in Hrun as (cv & Hcv & Hrun).
      apply except_bind_ok in Hrun as (passed & Hcmp & Hrun).
      apply take_indices_inv in Hcv as (Hlcv & _ & Hlk).
      apply compare_inv in Hcmp as (_ & Hlp & Hsat).
      destruct (IH _ _ Hrun) as (Hl & Hmask).
      { rewrite length_zip_with. lia. }
      split; [done|]. intros k i Hk.
      rewrite (Hmask k i Hk), andb_lookup, row_passes_cons.
      assert (is_Some (vals !! i)) as [v Hv].
      { rewrite <- (Hlk k i Hk). apply lookup_lt_is_Some.
        rewrite Hlcv. by eapply lookup_lt_Some. }
      assert (Hcvk : cv !! k = Some v) by (by rewrite (Hlk k i Hk)).
      rewrite (Hsat k v Hcvk). split.
      * intros [[? ?] ?]. split; [done|]. split; [|done].
        intros col v' Hcol Hv'. rewrite Hc in Hcol. injection Hcol as <-.
        congruence.
      * intros (? & Hs & ?). split; [|done]. split; [done|].
        exact (Hs vals v Hc Hv).
    + destruct (IH _ _ Hrun Hlen) as (Hl & Hmask).
      split; [done|]. intros k i Hk.
      rewrite (Hmask k i Hk), row_passes_cons. split.
      * intros [? ?]. split; [done|]. split; [|done].
        intros col v Hcol. congruence.
      * tauto.
Qed.

Lemma apply_criteria_filter_loop (df : frame)
    (criteria_settings : list criterion) (indices : list nat) :
  apply_criteria_filter df criteria_settings indices
  = criteria_loop df criteria_settings indices
      (replicate (length indices) true).
Proof. by destruct criteria_settings. Qed.

Lemma filter_mask_inv (df : frame) (criteria_settings : list criterion)
    (indices : list nat) (mask : list bool) :
  apply_criteria_filter df criteria_settings indices = ok mask →
  length mask = length indices ∧
  ∀ k i, indices !! k = Some i →
    (mask !! k = Some true ↔ row_passes df criteria_settings i).
Proof.
  rewrite apply_criteria_filter_loop. intros Hrun.
  destruct (criteria_loop_inv _ _ _ _ _ Hrun) as (Hl & Hmask).
  { by rewrite length_replicate. }
  split; [done|]. intros k i Hk. rewrite (Hmask k i Hk).
  split; [tauto|]. intros H. split; [|done].
  apply lookup_replicate. split; [done|]. by eapply lookup_lt_Some.
Qed.

(** X4: when the filter returns, its mask has one entry for each index, and
    the entry of an index is true exactly when the row at that index meets
    every criterion that names a column of the table (>= as threshold <=
    value, <= as value <= threshold, = as distance below 1e-10). *)
Theorem filter_mask_is_conjunction
    (df : frame) (criteria_settings : list criterion) (indices : list nat)
    (mask : list bool) :
  apply_criteria_filter df criteria_settings indices = ok mask →
  length mask = length indices ∧
  (∀ k i, indices !! k = Some i →
     (mask !! k = Some true ↔ row_passes df criteria_settings i)) ∧
  (∀ k i, indices !! k = Some i →
     (mask !! k = Some false ↔ ¬ row_passes df criteria_settings i)).
Proof.
  intros Hrun. destruct (filter_mask_inv _ _ _ _ Hrun) as (Hl & Hmask).
  split; [done|]. split; [done|]. intros k i Hk.
  pose proof (Hmask k i Hk) as Ht.
  destruct (lookup_lt_is_Some_2 mask k) as [b Hb].
  { rewrite Hl. by eapply lookup_lt_Some. }
  rewrite Hb in *. destruct b; split; try done.
  - intros Hn. exfalso. by apply Hn, Ht.
  - intros _ Hp. apply Ht in Hp. discriminate.
Qed.

Lemma filter_mask_is_conjunction_witness :
  length [true; true; false; false] = length [0; 1; 2; 3]%nat ∧
  (∀ k i, [0; 1; 2; 3]%nat !! k = Some i →
     ([true; true; false; false] !! k = Some true
      ↔ row_passes titer_table [("Titer", "=", 5%Q)] i)) ∧
  (∀ k i, [0; 1; 2; 3]%nat !! k = Some i →
     ([true; true; false; false] !! k = Some false
      ↔ ¬ row_passes titer_table [("Titer", "=", 5%Q)] i)).
Proof.
  apply (filter_mask_is_conjunction titer_table [("Titer", "=", 5%Q)]
           [0; 1; 2; 3]%nat [true; true; false; false]).
  reflexivity.
Defined.

(** X5: a criteria list that names no column of the table filters nothing:
    the mask is all true, one entry per index, whatever the operators (also
    unsupported ones) and whatever the indices (also out of range). *)
Theorem unknown_columns_filter_nothing
    (df : frame) (criteria_settings : list criterion) (indices : list nat) :
  (∀ crit_col op thresh, (crit_col, op, thresh) ∈ criteria_settings →
     df_columns df !! crit_col = None) →
  apply_criteria_filter df criteria_settings indices
    = ok (replicate (length indices) true).
Proof.
  rewrite apply_criteria_filter_loop.
  generalize (replicate (length indices) true).
  induction criteria_settings as [|[[c o] t] rest IH]; intros m0 Hmiss.
  - done.
  - simpl. rewrite (Hmiss c o t) by (by left).
    apply IH. intros c' o' t' Hin. apply (Hmiss c' o' t'). by right.
Qed.

Lemma unknown_columns_filter_nothing_witness :
  apply_criteria_filter titer_table
    [("Purity", "!=", 3%Q); ("Yield", ">=", 1%Q)] [0; 7]%nat
    = ok (replicate (length [0; 7]%nat) true).
Proof.
  apply (unknown_columns_filter_nothing titer_table
           [("Purity", "!=", 3%Q); ("Yield", ">=", 1%Q)] [0; 7]%nat).
  intros c o t Hin.
  apply elem_of_cons in Hin as [[= -> _ _]|Hin]; [reflexivity|].
  apply elem_of_cons in Hin as [[= -> _ _]|Hin]; [reflexivity|].
  by apply elem_of_nil in Hin.
Defined.

(** X6: the column values are fetched before the operator is looked at: when
    the first criterion that names a column of the table meets an index
    outside that column, the filter raises numpy's IndexError, whatever that
    criterion's operator is and whatever follows. *)
Theorem index_error_comes_first
    (df : frame) (skipped rest : list criterion) (crit_col op : string)
    (thresh : Q) (col : list Q) (indices : list nat) (i : nat) :
  (∀ c o t, (c, o, t) ∈ skipped → df_columns df !! c = None) →
  df_columns df !! crit_col = Some col →
  i ∈ indices → (length col ≤ i)%nat →
  apply_criteria_filter df (skipped ++ (crit_col, op, thresh) :: rest) indices
    = raise IndexError.
Proof.
  intros Hmiss Hcol Hi Hge. rewrite apply_criteria_filter_loop.
  generalize (replicate (length indices) true).
  induction skipped as [|[[c o] t] skipped IH]; intros m0.
  - simpl. rewrite Hcol. by rewrite (take_indices_raises col indices i).
  - simpl. rewrite (Hmiss c o t) by (by left).
    apply IH. intros c' o' t' Hin. apply (Hmiss c' o' t'). by right.
Qed.

Lemma index_error_comes_first_witness :
  apply_criteria_filter titer_table
    ([("Purity", "<=", 3%Q)] ++ ("Titer", "!=", 5%Q) :: []) [0; 4]%nat
    = raise IndexError.
Proof.
  apply (index_error_comes_first titer_table [("Purity", "<=", 3%Q)] []
           "Titer" "!=" 5%Q
           [5 + eleventh; 5 - eleventh; 5 + ninth; 5 - ninth]%Q
           [0; 4]%nat 4%nat).
  - intros c o t Hin.
    apply elem_of_cons in Hin as [[= -> _ _]|Hin]; [reflexivity|].
    by apply elem_of_nil in Hin.
  - reflexivity.
  - apply elem_of_cons; right. apply elem_of_cons; by left.
  - simpl. lia.
Defined.

(** The filter returns exactly when every criterion that names a column has a
    supported operator and finds all indices inside its column. *)
Lemma criteria_loop_returns (df : frame) (indices : list nat)
    (criteria_settings : list criterion) :
  ∀ filter_mask,
  (∃ mask, criteria_loop df criteria_settings indices filter_mask = ok mask)
  ↔ (∀ c o t col, (c, o, t) ∈ criteria_settings →
       df_columns df !! c = Some col →
       Forall (λ i, (i < length col)%nat) indices ∧ supported o).
Proof.
  induction criteria_settings as [|[[c o] t] rest IH]; intros m0.
  - split; [|by eauto]. intros _ ? ? ? ? Hin. by apply elem_of_nil in Hin.
  - simpl. destruct (df_columns df !! c) as [vals|] eqn:Hc.
    + split.
      * intros (mask & Hrun).
        apply except_bind_ok in Hrun as (cv & Hcv & Hrun).
        apply except_bind_ok in Hrun as (passed & Hcmp & Hrun).
        apply take_indices_inv in Hcv as (_ & Hin & _).
        apply compare_inv in Hcmp as (Hsup & _).
        intros c' o' t' col Hmem Hcol.
        apply elem_of_cons in Hmem as [[= -> -> ->]|Hmem].
        -- rewrite Hc in Hcol. by injection Hcol as <-.
        -- eapply (proj1 (IH _)); eauto.
      * intros Hall.
        destruct (Hall c o t vals ltac:(by left) Hc) as (Hin & Hsup).
        destruct (take_indices_spec vals indices Hin) as (cv & -> & _).
        rewrite except_bind_ret.
        destruct (compare_supported o cv t Hsup) as (passed & ->).
        rewrite except_bind_ret.
        apply IH. intros c' o' t' col Hmem. apply (Hall c' o' t'). by right.
    + rewrite IH. split.
      * intros Hall c' o' t' col Hmem Hcol.
        apply elem_of_cons in Hmem as [[= -> -> ->]|Hmem]; [congruence|].
        by eapply Hall.
      * intros Hall c' o' t' col Hmem. apply (Hall c' o' t'). by right.
Qed.

Lemma mask_ext (m m' : list bool) :
  length m = length m' →
  (∀ k, m !! k = Some true ↔ m' !! k = Some true) → m = m'.
Proof.
  intros Hlen Hiff. apply list_eq. intros k.
  destruct (m !! k) as [b|] eqn:Hb, (m' !! k) as [b'|] eqn:Hb'.
  - destruct b, b'; try done.
    + apply Hiff in Hb. congruence.
    + apply Hiff in Hb'. congruence.
  - apply lookup_lt_Some in Hb. apply lookup_ge_None in Hb'. lia.
  - apply lookup_lt_Some in Hb'. apply lookup_ge_None in Hb. lia.
  - done.
Qed.

(** X7: the order of the criteria does not matter to a filter that returns:
    any rearrangement of the list returns the same mask. *)
Theorem criteria_order_is_irrelevant
    (df : frame) (criteria_settings rearranged : list criterion)
    (indices : list nat) (mask : list bool) :
  rearranged ≡ₚ criteria_settings →
  apply_criteria_filter df criteria_settings indices = ok mask →
  apply_criteria_filter df rearranged indices = ok mask.
Proof.
  intros Hperm Hrun.
  assert (∃ mask', apply_criteria_filter df rearranged indices = ok mask')
    as [mask' Hrun'].
  { rewrite apply_criteria_filter_loop in *.
    pose proof (proj1 (criteria_loop_returns df indices criteria_settings _)
                  (ex_intro _ mask Hrun)) as Hall.
    apply criteria_loop_returns.
    intros c o t col Hmem. apply (Hall c o t col). by rewrite <- Hperm. }
  rewrite Hrun'. f_equal.
  destruct (filter_mask_inv _ _ _ _ Hrun) as (Hl & Hm).
  destruct (filter_mask_inv _ _ _ _ Hrun') as (Hl' & Hm').
  apply mask_ext; [lia|]. intros k.
  destruct (indices !! k) as [i|] eqn:Hk.
  - rewrite (Hm k i Hk), (Hm' k i Hk). unfold row_passes.
    split; intros H c o t col v Hmem; apply H;
      first [by rewrite <- Hperm | by rewrite Hperm].
  - apply lookup_ge_None in Hk.
    rewrite !(proj2 (lookup_ge_None _ _)) by lia. done.
Qed.

Lemma criteria_order_is_irrelevant_witness :
  apply_criteria_filter titer_table
    [("Titer", "<=", 5%Q); ("Purity", ">=", 1%Q); ("Titer", "=", 5%Q)]
    [0; 1; 2; 3]%nat = ok [false; true; false; false].
Proof.
  apply (criteria_order_is_irrelevant titer_table
           [("Titer", "=", 5%Q); ("Titer", "<=", 5%Q); ("Purity", ">=", 1%Q)]
           [("Titer", "<=", 5%Q); ("Purity", ">=", 1%Q); ("Titer", "=", 5%Q)]
           [0; 1; 2; 3]%nat [false; true; false; false]).
  - symmetry. apply Permutation_cons_append.
  - reflexivity.
Defined.

(** X8: criteria only ever remove rows: when the filter returns for a list
    and for a longer list that contains it, a row that passes the longer list
    passes the shorter one. *)
Theorem more_criteria_pass_fewer_rows
    (df : frame) (criteria_settings more : list criterion)
    (indices : list nat) (mask mask' : list bool) :
  apply_criteria_filter df criteria_settings indices = ok mask →
  apply_criteria_filter df (criteria_settings ++ more) indices = ok mask' →
  length mask' = length mask ∧
  ∀ k, mask' !! k = Some true → mask !! k = Some true.
Proof.
  intros Hrun Hrun'.
  destruct (filter_mask_inv _ _ _ _ Hrun) as (Hl & Hm).
  destruct (filter_mask_inv _ _ _ _ Hrun') as (Hl' & Hm').
  split; [lia|]. intros k Hk.
  destruct (indices !! k) as [i|] eqn:Hi.
  - apply (Hm k i Hi). apply (Hm' k i Hi) in Hk.
    intros c o t col v Hmem. apply Hk. apply elem_of_app. by left.
  - apply lookup_lt_Some in Hk. apply lookup_ge_None in Hi. lia.
Qed.

Lemma more_criteria_pass_fewer_rows_witness :
  length [false; true; false; false] = length [true; true; false; false] ∧
  ∀ k, [false; true; false; false] !! k = Some true →
       [true; true; false; false] !! k = Some true.
Proof.
  apply (more_criteria_pass_fewer_rows titer_table [("Titer", "=", 5%Q)]
           [("Titer", "<=", 5%Q)] [0; 1; 2; 3]%nat
           [true; true; false; false] [false; true; false; false]);
    reflexivity.
Defined.

(** ** The simulator at its edges *)

Section Edges.

Variable np_sqrt : Q → Q.
Variables (real_data : list Q) (df : frame).
Variables (top_x_percent step1_keep step2_keep step3_keep : Z).
Variables (correlation : Q) (n_rep : Z) (method : string).
Variables (criteria_settings : list criterion) (apply_criteria : bool).
Variable workflow_steps : Z.

(** After a setup that succeeds the result is what the loop leaves. *)
Lemma simulate_workflow_loop (g : rng) :
  ¬ violated real_data step1_keep step2_keep step3_keep workflow_steps →
  (method = "lognormal" → ∃ x, x ∈ real_data ∧ (0 < x)%Q) →
  0 ≤ top_x_percent ≤ 100 →
  ∃ cutoff,
    percentile real_data (inject_Z (100 - top_x_percent)) = ok cutoff ∧
    simulate_workflow np_sqrt real_data df top_x_percent step1_keep
      step2_keep step3_keep correlation n_rep method criteria_settings
      apply_criteria workflow_steps g
    = (let '(success_count, success_counts, g') :=
         trials np_sqrt real_data df step1_keep step2_keep step3_keep
           correlation method criteria_settings apply_criteria
           workflow_steps (model_for method real_data) cutoff
           (Z.to_nat n_rep) 0 [] g in
       (ok (if decide (n_rep > 0)
            then (inject_Z success_count / inject_Z n_rep)%Q else 0%Q,
            model_for method real_data, success_counts), g')).
Proof.
  intros Hvalid Hdata Hpct.
  apply validate_ok_iff in Hvalid.
  assert (Hlen : 0 < len real_data).
  { unfold validate in Hvalid. case_decide; [discriminate|].
    unfold len in *. lia. }
  destruct (percentile_defined real_data (100 - top_x_percent) Hlen
              ltac:(lia)) as [cutoff Hcut].
  exists cutoff. split; [done|].
  unfold simulate_workflow. rewrite Hvalid, except_bind_ret.
  assert ((if decide (method = "lognormal")
           then fit_lognormal real_data ≫= λ m, ok (Some m)
           else ok None) = ok (model_for method real_data)) as ->.
  { unfold model_for. case_decide; [|done].
    destruct (fit_lognormal_defined real_data (Hdata ltac:(done)))
      as [m Hm]. rewrite Hm, except_bind_ret.
    unfold fit_lognormal in Hm. case_decide; [discriminate|].
    by injection Hm as <-. }
  rewrite except_bind_ret, Hcut, except_bind_ret. reflexivity.
Qed.

Lemma trial_raises_at_first_draw (fitted_model : option fitted) (cutoff : Q)
    (e : exn) (g : rng) :
  generate_samples real_data (len real_data) method fitted_model g
    = (raise e, g) →
  trial np_sqrt real_data df step1_keep step2_keep step3_keep correlation
    method criteria_settings apply_criteria workflow_steps fitted_model
    cutoff g = (Raised e, g).
Proof.
  intros Hgen. unfold trial, select_step1, mbind, body_bind, call.
  by rewrite Hgen.
Qed.

(** Trials that never run to the end leave the tally as it was. *)
Lemma trials_all_skipped (fitted_model : option fitted) (cutoff : Q)
    (n : nat) :
  (∀ g r g', trial np_sqrt real_data df step1_keep step2_keep step3_keep
               correlation method criteria_settings apply_criteria
               workflow_steps fitted_model cutoff g ≠ (Normal r, g')) →
  ∀ success_count success_counts g,
  ∃ g', trials np_sqrt real_data df step1_keep step2_keep step3_keep
          correlation method criteria_settings apply_criteria workflow_steps
          fitted_model cutoff n success_count success_counts g
        = (success_count, success_counts, g').
Proof.
  intros Hskip. induction n as [|n IH]; intros sc scs g; simpl; [eauto|].
  destruct (trial _ _ _ _ _ _ _ _ _ _ _ _ _ _) as [[e| |r] g1] eqn:Ht.
  - apply IH.
  - apply IH.
  - exfalso. by eapply Hskip.
Qed.

Lemma trials_all_raise (fitted_model : option fitted) (cutoff : Q)
    (n : nat) :
  (∀ g, ∃ e, trial np_sqrt real_data df step1_keep step2_keep step3_keep
               correlation method criteria_settings apply_criteria
               workflow_steps fitted_model cutoff g = (Raised e, g)) →
  ∀ success_count success_counts g,
    trials np_sqrt real_data df step1_keep step2_keep step3_keep
      correlation method criteria_settings apply_criteria workflow_steps
      fitted_model cutoff n success_count success_counts g
    = (success_count, success_counts, g).
Proof.
  intros Hraise. induction n as [|n IH]; intros sc scs g; simpl; [done|].
  destruct (Hraise g) as [e ->]. apply IH.
Qed.

End Edges.

(** The loop leaves the tally of the outcomes of its iterations: one count
    per trial that ran to the end, in order, and one success per trial whose
    count is [step3_keep]. *)
Lemma trials_outcomes (np_sqrt : Q → Q) (real_data : list Q) (df : frame)
    (step1_keep step2_keep step3_keep : Z) (correlation : Q)
    (method : string) (criteria_settings : list criterion)
    (apply_criteria : bool) (workflow_steps : Z)
    (fitted_model : option fitted) (cutoff : Q) (n : nat) :
  ∀ success_count success_counts g,
    trials np_sqrt real_data df step1_keep step2_keep step3_keep correlation
      method criteria_settings apply_criteria workflow_steps fitted_model
      cutoff n success_count success_counts g
    = (let '(outcomes, g') :=
         trial_outcomes np_sqrt real_data df step1_keep step2_keep
           step3_keep correlation method criteria_settings apply_criteria
           workflow_steps fitted_model cutoff n g in
       (success_count + len (fully_successful_trials step3_keep outcomes),
        success_counts ++ omap completed outcomes, g')).
Proof.
  induction n as [|n IH]; intros sc scs g; simpl.
  - unfold len. simpl. by rewrite Z.add_0_r, app_nil_r.
  - destruct (trial _ _ _ _ _ _ _ _ _ _ _ _ _ _)
      as [[e| |[[[? ?] ?] c]] g1].
    + rewrite IH. by destruct (trial_outcomes _ _ _ _ _ _ _ _ _ _ _ _ _ _ _).
    + rewrite IH. by destruct (trial_outcomes _ _ _ _ _ _ _ _ _ _ _ _ _ _ _).
    + rewrite IH. destruct (trial_outcomes _ _ _ _ _ _ _ _ _ _ _ _ _ _ _)
        as [outs g2].
      unfold fully_successful_trials. rewrite filter_cons. simpl.
      rewrite <- app_assoc. simpl. f_equal. f_equal.
      destruct (decide (c = step3_keep)) as [->|Hc].
      * rewrite decide_True by done. unfold len. simpl. lia.
      * rewrite decide_False by congruence. lia.
Qed.

Lemma trial_outcomes_length (np_sqrt : Q → Q) (real_data : list Q)
    (df : frame) (step1_keep step2_keep step3_keep : Z) (correlation : Q)
    (method : string) (criteria_settings : list criterion)
    (apply_criteria : bool) (workflow_steps : Z)
    (fitted_model : option fitted) (cutoff : Q) (n : nat) (g : rng) :
  length (trial_outcomes np_sqrt real_data df step1_keep step2_keep
            step3_keep correlation method criteria_settings apply_criteria
            workflow_steps fitted_model cutoff n g).1 = n.
Proof.
  revert g. induction n as [|n IH]; intros g; simpl; [done|].
  destruct (trial _ _ _ _ _ _ _ _ _ _ _ _ _ _) as [o g1].
  specialize (IH g1).
  destruct (trial_outcomes _ _ _ _ _ _ _ _ _ _ _ _ _ _ _) as [outs g2].
  simpl in *. by rewrite IH.
Qed.

(** C2: for a configuration that passes the validation, with data the
    lognormal fit accepts, a percentage between 0 and 100 and a positive
    [n_rep], the simulator returns.  Its loop body is run [n_rep] times, each
    time on the random source the run before left, against the cutoff
    percentile of the data.  The probability returned is the number of those
    [n_rep] trials that ran to the end with a success count of [step3_keep],
    divided by [n_rep]: a trial that raised or was skipped is in the
    denominator and not in the numerator.  The counts returned are those of
    the trials that ran to the end, in order, and the probability lies
    between 0 and 1. *)
Theorem success_probability_over_n_rep
    (np_sqrt : Q → Q) (real_data : list Q) (df : frame)
    (top_x_percent step1_keep step2_keep step3_keep : Z) (correlation : Q)
    (n_rep : Z) (method : string) (criteria_settings : list criterion)
    (apply_criteria : bool) (workflow_steps : Z) (g : rng) :
  ¬ violated real_data step1_keep step2_keep step3_keep workflow_steps →
  (method = "lognormal" → ∃ x, x ∈ real_data ∧ (0 < x)%Q) →
  0 ≤ top_x_percent ≤ 100 →
  0 < n_rep →
  ∃ cutoff outcomes g' success_probability,
    percentile real_data (inject_Z (100 - top_x_percent)) = ok cutoff ∧
    trial_outcomes np_sqrt real_data df step1_keep step2_keep step3_keep
      correlation method criteria_settings apply_criteria workflow_steps
      (model_for method real_data) cutoff (Z.to_nat n_rep) g
    = (outcomes, g') ∧
    len outcomes = n_rep ∧
    simulate_workflow np_sqrt real_data df top_x_percent step1_keep
      step2_keep step3_keep correlation n_rep method criteria_settings
      apply_criteria workflow_steps g
    = (ok (success_probability, model_for method real_data,
           omap completed outcomes), g') ∧
    success_probability
    = (inject_Z (len (fully_successful_trials step3_keep outcomes))
       / inject_Z n_rep)%Q ∧
    len (fully_successful_trials step3_keep outcomes)
    ≤ len (omap completed outcomes) ≤ n_rep ∧
    (0 <= success_probability <= 1)%Q.
Proof.
  intros Hvalid Hdata Hpct Hrep.
  destruct (simulate_workflow_loop np_sqrt real_data df top_x_percent
              step1_keep step2_keep step3_keep correlation n_rep method
              criteria_settings apply_criteria workflow_steps g
              Hvalid Hdata Hpct) as (cutoff & Hcut & ->).
  rewrite trials_outcomes.
  pose proof (trial_outcomes_length np_sqrt real_data df step1_keep
                step2_keep step3_keep correlation method criteria_settings
                apply_criteria workflow_steps (model_for method real_data)
                cutoff (Z.to_nat n_rep) g) as Hlen.
  destruct (trial_outcomes _ _ _ _ _ _ _ _ _ _ _ _ _ _ _) as [outs g']
    eqn:Houts.
  simpl in Hlen.
  rewrite decide_True by lia. rewrite Z.add_0_l, app_nil_l.
  assert (Hfull : len (fully_successful_trials step3_keep outs)
                  ≤ len (omap completed outs)).
  { unfold len, fully_successful_trials. apply inj_le.
    clear Hlen Houts. induction outs as [|o outs IH]; [done|].
    rewrite filter_cons. destruct (decide (completed o = Some step3_keep))
      as [E|E]; simpl.
    - rewrite E. simpl. apply le_n_S, IH.
    - change (omap completed (o :: outs))
        with (match completed o with
              | Some c => c :: omap completed outs
              | None => omap completed outs
              end).
      destruct (completed o); simpl; [apply le_S|]; apply IH. }
  assert (Hrec : len (omap completed outs) ≤ n_rep).
  { assert (length (omap completed outs) ≤ length outs)%nat as Hom.
    { clear. induction outs as [|o outs IH]; [done|].
      change (omap completed (o :: outs))
        with (match completed o with
              | Some c => c :: omap completed outs
              | None => omap completed outs
              end).
      destruct (completed o); simpl; lia. }
    unfold len. lia. }
  eexists cutoff, outs, g', _.
  split; [done|]. split; [done|]. split; [unfold len; lia|].
  split; [reflexivity|]. split; [reflexivity|]. split; [lia|].
  apply ratio_in_unit_interval; [|done].
  unfold len in *. lia.
Qed.

Lemma success_probability_over_n_rep_witness :
  ∃ cutoff outcomes g' success_probability,
    percentile six_clones (inject_Z (100 - 50)) = ok cutoff ∧
    trial_outcomes sqrt_of_square six_clones purity_table 4 2 2 (3 # 5)
      "lognormal" [("Purity", ">=", 1%Q)] true 2
      (model_for "lognormal" six_clones) cutoff (Z.to_nat 2) two_trials
    = (outcomes, g') ∧
    len outcomes = 2 ∧
    simulate_workflow sqrt_of_square six_clones purity_table 50 4 2 2
      (3 # 5) 2 "lognormal" [("Purity", ">=", 1%Q)] true 2 two_trials
    = (ok (success_probability, model_for "lognormal" six_clones,
           omap completed outcomes), g') ∧
    success_probability
    = (inject_Z (len (fully_successful_trials 2 outcomes)) / inject_Z 2)%Q ∧
    len (fully_successful_trials 2 outcomes)
    ≤ len (omap completed outcomes) ≤ 2 ∧
    (0 <= success_probability <= 1)%Q.
Proof.
  apply (success_probability_over_n_rep sqrt_of_square six_clones
           purity_table 50 4 2 2 (3 # 5) 2 "lognormal"
           [("Purity", ">=", 1%Q)] true 2 two_trials).
  - unfold violated. vm_compute. intros [H|[H|[H|[H _]]]]; discriminate H.
  - intros _. exists 1%Q. split; [apply elem_of_cons; by left | reflexivity].
  - lia.
  - lia.
Defined.

(** Of the two trials on [two_trials] the first runs to the end with both
    final clones successful and the second is skipped by the final criteria
    gate; one count is recorded, and the probability is 1/2. *)
Example skipped_trial_stays_in_denominator :
  (simulate_workflow sqrt_of_square six_clones purity_table 50 4 2 2
     (3 # 5) 2 "lognormal" [("Purity", ">=", 1%Q)] true 2 two_trials).1
  = ok ((1 # 2)%Q, Some (LognormFit six_clones), [2]) ∧
  map completed
    (trial_outcomes sqrt_of_square six_clones purity_table 4 2 2 (3 # 5)
       "lognormal" [("Purity", ">=", 1%Q)] true 2
       (Some (LognormFit six_clones)) (7 # 2) 2 two_trials).1
  = [Some 2; None].
Proof. split; vm_compute; reflexivity. Qed.

Lemma zero_ratio (n : Z) : (inject_Z 0 / inject_Z n == 0)%Q.
Proof. unfold Qdiv. by rewrite Qmult_0_l. Qed.

(** X9: with a repetition count of zero or below and a setup that succeeds,
    the simulator runs no trial: it returns the probability 0 and an empty
    list of counts, with the model of the method, and draws nothing. *)
Theorem no_repetition_gives_zero
    (np_sqrt : Q → Q) (real_data : list Q) (df : frame)
    (top_x_percent step1_keep step2_keep step3_keep : Z) (correlation : Q)
    (n_rep : Z) (method : string) (criteria_settings : list criterion)
    (apply_criteria : bool) (workflow_steps : Z) (g : rng) :
  ¬ violated real_data step1_keep step2_keep step3_keep workflow_steps →
  (method = "lognormal" → ∃ x, x ∈ real_data ∧ (0 < x)%Q) →
  0 ≤ top_x_percent ≤ 100 →
  n_rep ≤ 0 →
  simulate_workflow np_sqrt real_data df top_x_percent step1_keep
    step2_keep step3_keep correlation n_rep method criteria_settings
    apply_criteria workflow_steps g
  = (ok (0%Q, model_for method real_data, []), g).
Proof.
  intros Hvalid Hdata Hpct Hrep.
  destruct (simulate_workflow_loop np_sqrt real_data df top_x_percent
              step1_keep step2_keep step3_keep correlation n_rep method
              criteria_settings apply_criteria workflow_steps g
              Hvalid Hdata Hpct) as (cutoff & _ & ->).
  replace (Z.to_nat n_rep) with 0%nat by lia.
  cbn [trials]. by rewrite decide_False by lia.
Qed.

Lemma no_repetition_gives_zero_witness :
  simulate_workflow sqrt_of_square six_clones (Frame 6 ∅) 50 4 2 1 (3 # 5)
    0 "kde" [] true 3 six_draws
  = (ok (0%Q, model_for "kde" six_clones, []), six_draws).
Proof.
  apply (no_repetition_gives_zero sqrt_of_square six_clones (Frame 6 ∅)
           50 4 2 1 (3 # 5) 0 "kde" [] true 3 six_draws).
  - unfold violated. vm_compute. intros [H|[H|[H|[_ H]]]]; discriminate H.
  - discriminate.
  - lia.
  - lia.
Defined.

(** X10: a distribution method other than "lognormal" and "kde" is reported
    nowhere: the setup succeeds, every trial raises at its first draw and is
    skipped, and the simulator returns a probability equal to 0, no model and
    no counts, without drawing a value. *)
Theorem unknown_method_gives_zero
    (np_sqrt : Q → Q) (real_data : list Q) (df : frame)
    (top_x_percent step1_keep step2_keep step3_keep : Z) (correlation : Q)
    (n_rep : Z) (method : string) (criteria_settings : list criterion)
    (apply_criteria : bool) (workflow_steps : Z) (g : rng) :
  ¬ violated real_data step1_keep step2_keep step3_keep workflow_steps →
  0 ≤ top_x_percent ≤ 100 →
  method ≠ "lognormal" → method ≠ "kde" →
  ∃ success_probability,
    simulate_workflow np_sqrt real_data df top_x_percent step1_keep
      step2_keep step3_keep correlation n_rep method criteria_settings
      apply_criteria workflow_steps g
    = (ok (success_probability, None, []), g) ∧
    (success_probability == 0)%Q.
Proof.
  intros Hvalid Hpct Hl Hk.
  destruct (simulate_workflow_loop np_sqrt real_data df top_x_percent
              step1_keep step2_keep step3_keep correlation n_rep method
              criteria_settings apply_criteria workflow_steps g
              Hvalid ltac:(done) Hpct) as (cutoff & _ & ->).
  assert (model_for method real_data = None) as ->.
  { unfold model_for. by rewrite decide_False. }
  rewrite trials_all_raise.
  - eexists. split; [reflexivity|]. case_decide; [apply zero_ratio|done].
  - intros g0.
    destruct (decide (Forall (λ x, (x <= 0)%Q) real_data)) as [Hd|Hd].
    + exists NoValidPoints. apply trial_raises_at_first_draw.
      by apply generate_samples_no_points.
    + exists UnsupportedMethod. apply trial_raises_at_first_draw.
      by apply generate_samples_unknown_method.
Qed.

Lemma unknown_method_gives_zero_witness :
  ∃ success_probability,
    simulate_workflow sqrt_of_square six_clones (Frame 6 ∅) 50 4 2 1 (3 # 5)
      1000 "normal" [] true 3 six_draws
    = (ok (success_probability, None, []), six_draws) ∧
    (success_probability == 0)%Q.
Proof.
  apply (unknown_method_gives_zero sqrt_of_square six_clones (Frame 6 ∅)
           50 4 2 1 (3 # 5) 1000 "normal" [] true 3 six_draws).
  - unfold violated. vm_compute. intros [H|[H|[H|[_ H]]]]; discriminate H.
  - lia.
  - discriminate.
  - discriminate.
Defined.

(** X11: data without a strictly positive value passes the validation but
    cannot be simulated: with the lognormal method the initial fit raises its
    no-positive-data error, which is not a configuration error and leaves the
    caller without a result; with any other method the simulator returns a
    probability equal to 0 and no counts, every trial having been skipped. *)
Theorem nonpositive_data_fit_raises_kde_gives_zero
    (np_sqrt : Q → Q) (real_data : list Q) (df : frame)
    (top_x_percent step1_keep step2_keep step3_keep : Z) (correlation : Q)
    (n_rep : Z) (method : string) (criteria_settings : list criterion)
    (apply_criteria : bool) (workflow_steps : Z) (g : rng) :
  Forall (λ x, (x <= 0)%Q) real_data →
  ¬ violated real_data step1_keep step2_keep step3_keep workflow_steps →
  0 ≤ top_x_percent ≤ 100 →
  let run :=
    simulate_workflow np_sqrt real_data df top_x_percent step1_keep
      step2_keep step3_keep correlation n_rep method criteria_settings
      apply_criteria workflow_steps g in
  (method = "lognormal" →
   run = (raise NoPositiveData, g) ∧ ¬ configuration_error NoPositiveData) ∧
  (method ≠ "lognormal" →
   ∃ success_probability,
     run = (ok (success_probability, None, []), g) ∧
     (success_probability == 0)%Q).
Proof.
  intros Hdata Hvalid Hpct run. split.
  - intros ->. split; [|by intros []].
    unfold run, simulate_workflow.
    apply validate_ok_iff in Hvalid. rewrite Hvalid, except_bind_ret.
    rewrite decide_True by done.
    assert (fit_lognormal real_data = raise NoPositiveData) as ->; [|done].
    apply filter_positive_nil in Hdata. unfold fit_lognormal.
    by rewrite Hdata.
  - intros Hm. unfold run.
    destruct (simulate_workflow_loop np_sqrt real_data df top_x_percent
                step1_keep step2_keep step3_keep correlation n_rep method
                criteria_settings apply_criteria workflow_steps g
                Hvalid ltac:(done) Hpct) as (cutoff & _ & ->).
    assert (model_for method real_data = None) as ->.
    { unfold model_for. by rewrite decide_False. }
    rewrite trials_all_raise.
    + eexists. split; [reflexivity|]. case_decide; [apply zero_ratio|done].
    + intros g0. exists NoValidPoints. apply trial_raises_at_first_draw.
      by apply generate_samples_no_points.
Qed.

Lemma nonpositive_data_fit_raises_kde_gives_zero_witness :
  let run :=
    simulate_workflow sqrt_of_square [-1; 0; -3]%Q (Frame 3 ∅) 50 2 1 1
      (3 # 5) 1000 "kde" [] true 3 six_draws in
  ("kde" = "lognormal" →
   run = (raise NoPositiveData, six_draws)
   ∧ ¬ configuration_error NoPositiveData) ∧
  ("kde" ≠ "lognormal" →
   ∃ success_probability,
     run = (ok (success_probability, None, []), six_draws) ∧
     (success_probability == 0)%Q).
Proof.
  apply (nonpositive_data_fit_raises_kde_gives_zero sqrt_of_square
           [-1; 0; -3]%Q (Frame 3 ∅) 50 2 1 1 (3 # 5) 1000 "kde" [] true 3
           six_draws).
  - repeat constructor; discriminate.
  - unfold violated. vm_compute. intros [H|[H|[H|[_ H]]]]; discriminate H.
  - lia.
Defined.

(** ** The recorded counts *)

Section Counts.

Variable np_sqrt : Q → Q.
Variables (real_data : list Q) (df : frame).
Variables (step1_keep step2_keep step3_keep : Z) (correlation : Q).
Variables (method : string) (criteria_settings : list criterion).
Variables (apply_criteria : bool) (workflow_steps : Z).
Variables (fitted_model : option fitted) (cutoff : Q).

Lemma trial_count_bounds (g g' : rng) (s1 : stage1) (s2 : stage2)
    (fin : final) (count_success : Z) :
  0 < step3_keep →
  trial np_sqrt real_data df step1_keep step2_keep step3_keep correlation
    method criteria_settings apply_criteria workflow_steps fitted_model
    cutoff g = (Normal (s1, s2, fin, count_success), g') →
  0 ≤ count_success ≤ step3_keep.
Proof.
  intros H3 Htrial. unfold trial in Htrial.
  apply bind_Normal in Htrial as (s1' & ga & Hs1 & Htrial).
  apply bind_Normal in Htrial as (s2' & gb & Hs2 & Htrial).
  apply bind_Normal in Htrial as (fin' & gc & Hfin & Htrial).
  apply bind_Normal in Htrial as ([] & gd & Hgate & Htrial).
  apply ret_Normal in Htrial as [[= <- <- <- ->] ->].
  apply select_final_Normal in Hfin as (Hidx & Hcase).
  pose proof (py_tail_length step3_keep (argsort (final_assay fin)) H3)
    as Hlen. rewrite <- Hidx in Hlen.
  assert (Hsc : length (final_scores fin) = length (final_idx fin)).
  { destruct (decide (workflow_steps = 3)).
    - destruct Hcase as (_ & _ & Ht). by apply take_indices_inv in Ht as (? & _).
    - destruct Hcase as (_ & Ht). by apply take_indices_inv in Ht as (? & _). }
  pose proof (count_ge_bounds (final_scores fin) cutoff) as Hb.
  unfold len in *. lia.
Qed.

Lemma trials_counts_bounded (n : nat) :
  0 < step3_keep →
  ∀ success_count success_counts g,
  Forall (λ c, 0 ≤ c ≤ step3_keep) success_counts →
  Forall (λ c, 0 ≤ c ≤ step3_keep)
    (trials np_sqrt real_data df step1_keep step2_keep step3_keep correlation
       method criteria_settings apply_criteria workflow_steps fitted_model
       cutoff n success_count success_counts g).1.2.
Proof.
  intros H3. induction n as [|n IH]; intros sc scs g Hscs; simpl; [done|].
  destruct (trial _ _ _ _ _ _ _ _ _ _ _ _ _ _)
    as [[e| |[[[s1 s2] fin] c]] g1] eqn:Ht.
  - by apply IH.
  - by apply IH.
  - apply IH. apply Forall_app. split; [done|].
    apply Forall_singleton. by eapply trial_count_bounds.
Qed.

End Counts.

(** What a returning run was computed from. *)
Lemma simulate_workflow_returns
    (np_sqrt : Q → Q) (real_data : list Q) (df : frame)
    (top_x_percent step1_keep step2_keep step3_keep : Z) (correlation : Q)
    (n_rep : Z) (method : string) (criteria_settings : list criterion)
    (apply_criteria : bool) (workflow_steps : Z) (g g' : rng)
    (p : Q) (fitted_model : option fitted) (success_counts : list Z) :
  simulate_workflow np_sqrt real_data df top_x_percent step1_keep step2_keep
    step3_keep correlation n_rep method criteria_settings apply_criteria
    workflow_steps g = (ok (p, fitted_model, success_counts), g') →
  ∃ cutoff success_count,
    trials np_sqrt real_data df step1_keep step2_keep step3_keep correlation
      method criteria_settings apply_criteria workflow_steps fitted_model
      cutoff (Z.to_nat n_rep) 0 [] g = (success_count, success_counts, g') ∧
    p = (if decide (n_rep > 0)
         then (inject_Z success_count / inject_Z n_rep)%Q else 0%Q).
Proof.
  unfold simulate_workflow.
  destruct (validate _ _ _ _ _) as [e|[]]; [discriminate|].
  rewrite except_bind_ret.
  destruct (if decide (method = "lognormal")
            then fit_lognormal real_data ≫= λ m, ok (Some m)
            else ok None) as [e|fm]; [discriminate|].
  rewrite except_bind_ret.
  destruct (percentile _ _) as [e|cutoff]; [discriminate|].
  rewrite except_bind_ret. unfold ok at 1. cbv beta iota.
  destruct (trials np_sqrt real_data df step1_keep step2_keep step3_keep
              correlation method criteria_settings apply_criteria
              workflow_steps fm cutoff (Z.to_nat n_rep) 0 [] g)
    as [[sc scs] g1] eqn:Ht.
  intros H. inversion H; subst. eauto.
Qed.

(** X12: every count in the list a run returns lies between 0 and
    [step3_keep], for a positive [step3_keep] and whatever else the
    configuration is; the list has at most [n_rep] entries. *)
Theorem recorded_counts_are_bounded
    (np_sqrt : Q → Q) (real_data : list Q) (df : frame)
    (top_x_percent step1_keep step2_keep step3_keep : Z) (correlation : Q)
    (n_rep : Z) (method : string) (criteria_settings : list criterion)
    (apply_criteria : bool) (workflow_steps : Z) (g g' : rng)
    (p : Q) (fitted_model : option fitted) (success_counts : list Z) :
  0 < step3_keep →
  simulate_workflow np_sqrt real_data df top_x_percent step1_keep step2_keep
    step3_keep correlation n_rep method criteria_settings apply_criteria
    workflow_steps g = (ok (p, fitted_model, success_counts), g') →
  Forall (λ c, 0 ≤ c ≤ step3_keep) success_counts ∧
  len success_counts ≤ Z.max 0 n_rep.
Proof.
  intros H3 Hrun.
  apply simulate_workflow_returns in Hrun as (cutoff & sc & Ht & _).
  split.
  - pose proof (trials_counts_bounded np_sqrt real_data df step1_keep
                  step2_keep step3_keep correlation method criteria_settings
                  apply_criteria workflow_steps fitted_model cutoff
                  (Z.to_nat n_rep) H3 0 [] g ltac:(constructor)) as Hb.
    by rewrite Ht in Hb.
  - destruct (trials_tally np_sqrt real_data df step1_keep step2_keep
                step3_keep correlation method criteria_settings
                apply_criteria workflow_steps fitted_model cutoff
                (Z.to_nat n_rep) 0 [] g) as (new & g1 & Hn & Hlen).
    rewrite Ht in Hn. injection Hn as _ -> _.
    unfold len. simpl. lia.
Qed.

Lemma recorded_counts_are_bounded_witness :
  Forall (λ c, 0 ≤ c ≤ 2) [2] ∧ len [2] ≤ Z.max 0 2.
Proof.
  apply (recorded_counts_are_bounded sqrt_of_square six_clones purity_table
           50 4 2 2 (3 # 5) 2 "lognormal" [("Purity", ">=", 1%Q)] true 2
           two_trials (advance two_trials 20)
           (1 # 2)%Q (Some (LognormFit six_clones)) [2]).
  - lia.
  - vm_compute. reflexivity.
Defined.

(** ** Criteria applied up front *)

Lemma mask_select_length {A} (a : list A) (mask : list bool) :
  length a = length mask → length (mask_select a mask) = count_true mask.
Proof.
  unfold count_true. revert mask.
  induction a as [|x a IH]; intros [|b mask] Hlen; try done.
  simpl in Hlen. rewrite filter_cons. destruct b.
  - rewrite decide_True by done. simpl. f_equal. apply IH. lia.
  - rewrite decide_False by done. simpl. apply IH. lia.
Qed.

Lemma select_step1_filtered_out
    (real_data : list Q) (df : frame) (step1_keep : Z) (method : string)
    (criteria_settings : list criterion) (fitted_model : option fitted)
    (mask : list bool) (g g' : rng) (s1 : stage1) :
  apply_criteria_filter df criteria_settings (seq 0 (df_len df)) = ok mask →
  length mask ≠ length real_data ∨ Z.of_nat (count_true mask) < step1_keep →
  select_step1 real_data df step1_keep method criteria_settings false
    fitted_model g ≠ (Normal s1, g').
Proof.
  intros Hmask Hstrict H. unfold select_step1 in H.
  apply bind_Normal in H as (raw & g1 & Hgen & H).
  apply call_Normal, generate_samples_ok in Hgen as (_ & -> & _).
  apply bind_Normal in H as (kept & g2 & Hkept & _).
  cbn [negb] in Hkept.
  apply bind_Normal in Hkept as (m & g3 & Hm & Hkept).
  apply eval_Normal in Hm as [Hm _]. rewrite Hmask in Hm.
  injection Hm as <-.
  apply bind_Normal in Hkept as (sel & g4 & Hsel & Hkept).
  apply eval_Normal in Hsel as [Hsel _]. unfold take_mask in Hsel.
  destruct (decide (length (next_values g (Z.to_nat (len real_data)))
                    = length mask)) as [Hlen|]; [|discriminate].
  unfold ok in Hsel. injection Hsel as <-.
  destruct (decide (len (mask_select (next_values g
                           (Z.to_nat (len real_data))) mask) < step1_keep))
    as [|Hcount]; [discriminate|].
  unfold len in Hcount, Hlen.
  rewrite mask_select_length in Hcount by done.
  rewrite next_values_length, Nat2Z.id in Hlen.
  destruct Hstrict; [congruence|lia].
Qed.

(** X13: with the criteria applied up front, a filter that keeps fewer than
    [step1_keep] rows of the table, or a table whose number of rows differs
    from the number of data values, makes every trial end before its first
    selection; the simulator still returns normally, with a probability equal
    to 0 and no counts. *)
Theorem upfront_filter_too_strict_gives_zero
    (np_sqrt : Q → Q) (real_data : list Q) (df : frame)
    (top_x_percent step1_keep step2_keep step3_keep : Z) (correlation : Q)
    (n_rep : Z) (method : string) (criteria_settings : list criterion)
    (workflow_steps : Z) (mask : list bool) (g : rng) :
  ¬ violated real_data step1_keep step2_keep step3_keep workflow_steps →
  (method = "lognormal" → ∃ x, x ∈ real_data ∧ (0 < x)%Q) →
  0 ≤ top_x_percent ≤ 100 →
  apply_criteria_filter df criteria_settings (seq 0 (df_len df)) = ok mask →
  length mask ≠ length real_data ∨ Z.of_nat (count_true mask) < step1_keep →
  ∃ success_probability g',
    simulate_workflow np_sqrt real_data df top_x_percent step1_keep
      step2_keep step3_keep correlation n_rep method criteria_settings
      false workflow_steps g
    = (ok (success_probability, model_for method real_data, []), g') ∧
    (success_probability == 0)%Q.
Proof.
  intros Hvalid Hdata Hpct Hmask Hstrict.
  destruct (simulate_workflow_loop np_sqrt real_data df top_x_percent
              step1_keep step2_keep step3_keep correlation n_rep method
              criteria_settings false workflow_steps g
              Hvalid Hdata Hpct) as (cutoff & _ & ->).
  destruct (trials_all_skipped np_sqrt real_data df step1_keep step2_keep
              step3_keep correlation method criteria_settings false
              workflow_steps (model_for method real_data) cutoff
              (Z.to_nat n_rep)) with (success_count := 0)
              (success_counts := @nil Z) (g := g) as [g' ->].
  - intros g0 r g1 Ht. unfold trial in Ht.
    apply bind_Normal in Ht as (s1 & ga & Hs1 & _).
    by eapply select_step1_filtered_out.
  - eexists _, g'. split; [reflexivity|].
    case_decide; [apply zero_ratio|done].
Qed.

Lemma upfront_filter_too_strict_gives_zero_witness :
  ∃ success_probability g',
    simulate_workflow sqrt_of_square six_clones purity_table 50 4 2 2
      (3 # 5) 1000 "lognormal" [("Purity", "<=", 0%Q)] false 2 six_draws
    = (ok (success_probability, model_for "lognormal" six_clones, []), g') ∧
    (success_probability == 0)%Q.
Proof.
  apply (upfront_filter_too_strict_gives_zero sqrt_of_square six_clones
           purity_table 50 4 2 2 (3 # 5) 1000 "lognormal"
           [("Purity", "<=", 0%Q)] 2
           [true; false; false; false; false; false] six_draws).
  - unfold violated. vm_compute. intros [H|[H|[H|[H _]]]]; discriminate H.
  - intros _. exists 1%Q. split; [apply elem_of_cons; by left | reflexivity].
  - lia.
  - reflexivity.
  - right. vm_compute. reflexivity.
Defined.

(** ** The sweep: clamping and bounds *)

Lemma probe_of_violated (np_sqrt : Q → Q) (results : list Q) (df : frame)
    (base_settings : Settings.t) (correlation : Q) (param_name : string)
    (param_value : Z) (g : rng) :
  let test := test_settings base_settings param_name param_value in
  violated results (Settings.step1_keep test) (Settings.step2_keep test)
    (Settings.step3_keep test) (Settings.workflow_steps test) →
  probe np_sqrt results df base_settings correlation param_name param_value g
    = (0%Q, g).
Proof.
  intros test Hv. apply validate_raises_iff in Hv as (e & He & _).
  unfold probe, simulate_workflow. fold test. by rewrite He.
Qed.

(** X14: sweeping [step1_keep] re-clamps [step2_keep] and [step3_keep] below
    the candidate, so that the tested configuration can only fail the
    validation on the data size: it is rejected exactly when the data is
    empty or the candidate exceeds the number of data values, and is then
    recorded as 0 without a draw. *)
Theorem step1_sweep_keeps_the_ordering
    (np_sqrt : Q → Q) (results : list Q) (df : frame)
    (base_settings : Settings.t) (correlation : Q) (candidate : Z) (g : rng) :
  let test := test_settings base_settings "step1_keep" candidate in
  Settings.step1_keep test = candidate ∧
  Settings.step2_keep test
    = Z.min (Settings.step2_keep base_settings) candidate ∧
  Settings.step3_keep test
    = Z.min (Settings.step3_keep base_settings)
        (Z.min (Settings.step2_keep base_settings) candidate) ∧
  Settings.step3_keep test ≤ Settings.step2_keep test ≤
    Settings.step1_keep test ∧
  (violated results (Settings.step1_keep test) (Settings.step2_keep test)
     (Settings.step3_keep test) (Settings.workflow_steps test)
   ↔ len results = 0 ∨ candidate > len results) ∧
  (len results = 0 ∨ candidate > len results →
   probe np_sqrt results df base_settings correlation "step1_keep"
     candidate g = (0%Q, g)).
Proof.
  intros test.
  assert (H1 : Settings.step1_keep test = candidate) by reflexivity.
  assert (H2 : Settings.step2_keep test
               = Z.min (Settings.step2_keep base_settings) candidate)
    by reflexivity.
  assert (H3 : Settings.step3_keep test
               = Z.min (Settings.step3_keep base_settings)
                   (Z.min (Settings.step2_keep base_settings) candidate))
    by reflexivity.
  assert (Hv : violated results (Settings.step1_keep test)
                 (Settings.step2_keep test) (Settings.step3_keep test)
                 (Settings.workflow_steps test)
               ↔ len results = 0 ∨ candidate > len results).
  { unfold violated. rewrite H1, H2, H3. lia. }
  split; [done|]. split; [done|]. split; [done|].
  split; [rewrite H1, H2, H3; lia|]. split; [done|].
  intros Hbad. apply probe_of_violated. by apply Hv.
Qed.

(** X15: sweeping [step2_keep] re-clamps [step3_keep] but leaves [step1_keep]
    as it is: a candidate above the baseline [step1_keep] (as the 1.25x and
    1.5x candidates are when the two baselines are equal) is rejected by the
    validation and recorded as 0, without a draw. *)
Theorem step2_sweep_above_step1_is_zero
    (np_sqrt : Q → Q) (results : list Q) (df : frame)
    (base_settings : Settings.t) (correlation : Q) (candidate : Z) (g : rng) :
  candidate > Settings.step1_keep base_settings →
  let test := test_settings base_settings "step2_keep" candidate in
  Settings.step1_keep test = Settings.step1_keep base_settings ∧
  Settings.step2_keep test = candidate ∧
  Settings.step3_keep test
    = Z.min (Settings.step3_keep base_settings) candidate ∧
  probe np_sqrt results df base_settings correlation "step2_keep"
    candidate g = (0%Q, g).
Proof.
  intros Hc test.
  split; [reflexivity|]. split; [reflexivity|]. split; [reflexivity|].
  apply probe_of_violated. fold test.
  change (Settings.step1_keep test) with (Settings.step1_keep base_settings).
  change (Settings.step2_keep test) with candidate.
  unfold violated. lia.
Qed.

Lemma step2_sweep_above_step1_is_zero_witness :
  let base := Settings.Make 2 4 4 2 "lognormal" [] false 3 in
  let test := test_settings base "step2_keep" 5 in
  Settings.step1_keep test = Settings.step1_keep base ∧
  Settings.step2_keep test = 5 ∧
  Settings.step3_keep test = Z.min (Settings.step3_keep base) 5 ∧
  probe sqrt_of_square six_clones (Frame 6 ∅) base (3 # 5) "step2_keep"
    5 six_draws = (0%Q, six_draws).
Proof.
  apply (step2_sweep_above_step1_is_zero sqrt_of_square six_clones
           (Frame 6 ∅) (Settings.Make 2 4 4 2 "lognormal" [] false 3)
           (3 # 5) 5 six_draws).
  simpl. lia.
Defined.

Lemma simulate_workflow_probability
    (np_sqrt : Q → Q) (real_data : list Q) (df : frame)
    (top_x_percent step1_keep step2_keep step3_keep : Z) (correlation : Q)
    (n_rep : Z) (method : string) (criteria_settings : list criterion)
    (apply_criteria : bool) (workflow_steps : Z) (g g' : rng)
    (p : Q) (fitted_model : option fitted) (success_counts : list Z) :
  simulate_workflow np_sqrt real_data df top_x_percent step1_keep step2_keep
    step3_keep correlation n_rep method criteria_settings apply_criteria
    workflow_steps g = (ok (p, fitted_model, success_counts), g') →
  (0 <= p <= 1)%Q.
Proof.
  intros Hrun.
  apply simulate_workflow_returns in Hrun as (cutoff & sc & Ht & ->).
  destruct (trials_tally np_sqrt real_data df step1_keep step2_keep
              step3_keep correlation method criteria_settings
              apply_criteria workflow_steps fitted_model cutoff
              (Z.to_nat n_rep) 0 [] g) as (new & g1 & Hn & Hlen).
  rewrite Ht in Hn. injection Hn as -> _ _.
  pose proof (fully_successful_bounds step3_keep new) as Hb.
  case_decide.
  - apply ratio_in_unit_interval; [unfold len in *; lia | lia].
  - split; [apply Qle_refl | discriminate].
Qed.

Lemma candidate_outcome_bounds (np_sqrt : Q → Q) (results : list Q)
    (df : frame) (base_settings : Settings.t) (correlation : Q)
    (param_name : string) (param_value : Z) (p : Q) :
  candidate_outcome np_sqrt results df base_settings correlation
    param_name param_value p →
  (0 <= p <= 1)%Q.
Proof.
  intros [g0 H]. cbv zeta in H.
  destruct (simulate_workflow _ _ _ _ _ _ _ _ _ _ _ _ _ _)
    as [[e|[[prob fm] counts]] g1] eqn:Hrun; cbn [fst] in H; subst p.
  - split; [apply Qle_refl | discriminate].
  - by eapply simulate_workflow_probability.
Qed.

(** X16: every probability the sweep reports, for every candidate of every
    parameter, lies between 0 and 1. *)
Theorem sweep_probabilities_are_probabilities
    (np_sqrt : Q → Q) (results : list Q) (df : frame)
    (settings : Settings.t) (correlations : list Q) (g : rng) :
  Forall (λ entry, Forall (λ p, (0 <= p <= 1)%Q) (probabilities entry.2))
    (run_sensitivity_analysis np_sqrt results df settings correlations g).1.
Proof.
  unfold run_sensitivity_analysis.
  destruct (sweep_all_outcomes np_sqrt results df settings
              (default (1 # 2)%Q (head correlations))
              (param_ranges settings) [] g) as (new & -> & Hnew).
  rewrite app_nil_l.
  generalize dependent (param_ranges settings). intros ranges Hnew.
  induction Hnew as [|range entry ranges new (_ & _ & Hout) _ IH];
    constructor; [|exact IH].
  clear IH. induction Hout as [|v p vs ps Hp _ IH]; constructor; [|exact IH].
  by eapply candidate_outcome_bounds.
Qed.

(** ** Workflow efficiency: division by zero and ranges *)

(** X17: the efficiency summary raises Python's ZeroDivisionError exactly
    when [step1_keep] or [step2_keep] is 0, or [step3_keep] is 0 in a 3-step
    workflow, and returns otherwise; outside a 3-step workflow [step3_keep]
    has no influence on the result. *)
Theorem efficiency_division_by_zero
    (step1_keep step2_keep step3_keep workflow_steps : Z) :
  (step1_keep = 0 ∨ step2_keep = 0 ∨ (workflow_steps = 3 ∧ step3_keep = 0)
   ↔ calculate_workflow_efficiency step1_keep step2_keep step3_keep
       workflow_steps = raise ZeroDivisionError) ∧
  (step1_keep ≠ 0 ∧ step2_keep ≠ 0 ∧ (workflow_steps = 3 → step3_keep ≠ 0)
   ↔ ∃ m, calculate_workflow_efficiency step1_keep step2_keep step3_keep
            workflow_steps = ok m) ∧
  (workflow_steps ≠ 3 → ∀ other,
     calculate_workflow_efficiency step1_keep step2_keep other workflow_steps
     = calculate_workflow_efficiency step1_keep step2_keep step3_keep
         workflow_steps).
Proof.
  unfold calculate_workflow_efficiency, true_div.
  split; [|split].
  - destruct (decide (workflow_steps = 3)) as [Hw|Hw];
      destruct (decide (step1_keep = 0)), (decide (step2_keep = 0)),
        (decide (step3_keep = 0)); simpl; split;
      solve [ done | intros; tauto | intros; lia | intros _; lia
            | intros [=] ].
  - destruct (decide (workflow_steps = 3)) as [Hw|Hw];
      destruct (decide (step1_keep = 0)), (decide (step2_keep = 0)),
        (decide (step3_keep = 0)); simpl; split;
      solve [ intros; tauto | intros; lia | intros [? [=]] | eauto
            | intros _; repeat split; (done || lia) ].
  - intros Hw other. by rewrite !(decide_False (P := workflow_steps = 3)).
Qed.

Lemma quotient_bounds (a b : Z) :
  0 < a → a ≤ b →
  (0 < inject_Z a / inject_Z b)%Q ∧ (inject_Z a / inject_Z b <= 1)%Q ∧
  (1 <= inject_Z b / inject_Z a)%Q.
Proof.
  intros Ha Hab.
  assert (0 < inject_Z a)%Q as Ha'.
  { change 0%Q with (inject_Z 0). rewrite <- Zlt_Qlt. lia. }
  assert (0 < inject_Z b)%Q as Hb'.
  { change 0%Q with (inject_Z 0). rewrite <- Zlt_Qlt. lia. }
  split; [|split].
  - apply Qlt_shift_div_l; [done|]. by rewrite Qmult_0_l.
  - apply Qle_shift_div_r; [done|]. rewrite Qmult_1_l.
    rewrite <- Zle_Qle. lia.
  - apply Qle_shift_div_l; [done|]. rewrite Qmult_1_l.
    rewrite <- Zle_Qle. lia.
Qed.

(** X18: for keep-counts that are positive and ordered as the simulator
    requires, every efficiency lies in (0, 1] and the reduction ratio is at
    least 1. *)
Theorem efficiency_ranges
    (step1_keep step2_keep step3_keep workflow_steps : Z) :
  0 < step2_keep → step2_keep ≤ step1_keep →
  (workflow_steps = 3 → 0 < step3_keep ∧ step3_keep ≤ step2_keep) →
  ∃ m, calculate_workflow_efficiency step1_keep step2_keep step3_keep
         workflow_steps = ok m ∧
       (0 < step1_efficiency m)%Q ∧ (step1_efficiency m <= 1)%Q ∧
       (0 < step2_efficiency m)%Q ∧ (step2_efficiency m <= 1)%Q ∧
       (0 < overall_efficiency m)%Q ∧ (overall_efficiency m <= 1)%Q ∧
       (1 <= reduction_ratio m)%Q.
Proof.
  intros H2 H21 H3.
  unfold calculate_workflow_efficiency, true_div.
  destruct (decide (workflow_steps = 3)) as [Hw|Hw].
  - destruct (H3 Hw) as [H3p H32].
    rewrite !decide_False by lia. simpl.
    eexists; split; [reflexivity|]. simpl.
    destruct (quotient_bounds step2_keep step1_keep ltac:(lia) ltac:(lia))
      as (? & ? & ?).
    destruct (quotient_bounds step3_keep step2_keep ltac:(lia) ltac:(lia))
      as (? & ? & ?).
    destruct (quotient_bounds step3_keep step1_keep ltac:(lia) ltac:(lia))
      as (? & ? & ?).
    done.
  - rewrite !decide_False by lia. simpl.
    eexists; split; [reflexivity|]. simpl.
    destruct (quotient_bounds step2_keep step1_keep ltac:(lia) ltac:(lia))
      as (? & ? & ?).
    repeat split; done.
Qed.

Lemma efficiency_ranges_witness :
  ∃ m, calculate_workflow_efficiency 96 48 6 3 = ok m ∧
       (0 < step1_efficiency m)%Q ∧ (step1_efficiency m <= 1)%Q ∧
       (0 < step2_efficiency m)%Q ∧ (step2_efficiency m <= 1)%Q ∧
       (0 < overall_efficiency m)%Q ∧ (overall_efficiency m <= 1)%Q ∧
       (1 <= reduction_ratio m)%Q.
Proof.
  apply (efficiency_ranges 96 48 6 3); lia.
Defined.

(** ** The parameter check *)

(** X19: the parameter check returns no message exactly for configurations
    that the simulator's own validation accepts and whose keep-counts are all
    positive; unlike that validation, which stops at the first violation, it
    reports every violated rule, in the order step 1, step 2, step 3,
    positivity. *)
Theorem parameter_check_agrees_with_validation
    (real_data : list Q) (step1_keep step2_keep step3_keep : Z)
    (workflow_steps : Z) :
  let errors :=
    validate_workflow_parameters step1_keep step2_keep step3_keep
      workflow_steps (len real_data) in
  (errors = []
   ↔ ¬ violated real_data step1_keep step2_keep step3_keep workflow_steps ∧
     0 < step1_keep ∧ 0 < step2_keep ∧ 0 < step3_keep) ∧
  (Step1ExceedsTotal step1_keep (len real_data) ∈ errors
   ↔ step1_keep > len real_data) ∧
  (Step2ExceedsStep1Keep step2_keep step1_keep ∈ errors
   ↔ step2_keep > step1_keep) ∧
  (Step3ExceedsStep2Keep step3_keep step2_keep ∈ errors
   ↔ workflow_steps = 3 ∧ step3_keep > step2_keep) ∧
  (KeepNotPositive ∈ errors
   ↔ step1_keep ≤ 0 ∨ step2_keep ≤ 0 ∨ step3_keep ≤ 0) ∧
  (violated real_data step1_keep step2_keep step3_keep workflow_steps →
   errors ≠ []).
Proof.
  intros errors. unfold errors, validate_workflow_parameters, violated.
  pose proof (Nat2Z.is_nonneg (length real_data)) as Hlen.
  fold (len real_data) in Hlen.
  repeat case_decide; simpl.
  all: repeat split; intros; try done; try lia; try tauto.
  all: repeat match goal with
       | H : _ ∈ _ |- _ =>
           first [ apply elem_of_nil in H; destruct H
                 | apply elem_of_cons in H as [H|H]; [discriminate H|] ]
       | H : _ ∈ _ |- _ =>
           apply elem_of_cons in H as [H|H]; [inversion H; subst|]
       end; try lia; try tauto.
  all: try (repeat first [apply list_elem_of_here | apply list_elem_of_further]).
Qed.

(** ** Two steps with the sidebar's convention *)

(** X20: in a workflow that is not 3-step, with [step3_keep] equal to
    [step2_keep] (what the sidebar passes for two steps), the final selection
    is the stage-2 selection again: the same positions, carrying the same
    stage-1 values, ranked on the stage-2 vector, and no value is drawn. *)
Theorem two_step_final_is_stage2_selection
    (np_sqrt : Q → Q) (real_data : list Q)
    (step1_keep step2_keep : Z) (correlation : Q) (method : string)
    (workflow_steps : Z) (fitted_model : option fitted)
    (s1 : stage1) (s2 : stage2) (g1 g2 : rng) :
  workflow_steps ≠ 3 →
  select_step2 np_sqrt real_data step1_keep step2_keep correlation method
    fitted_model s1 g1 = (Normal s2, g2) →
  select_final np_sqrt real_data step2_keep step2_keep correlation method
    workflow_steps fitted_model s1 s2 g2
  = (Normal (Final (assay_g s2) (top2_idx s2) (top2_f s2)), g2).
Proof.
  intros Hw Hs2.
  apply select_step2_Normal in Hs2 as (_ & _ & _ & _ & _ & Hidx & Htake).
  unfold select_final. rewrite decide_False by done.
  cbv zeta. rewrite <- Hidx.
  unfold mbind, body_bind, eval, call. by rewrite Htake.
Qed.

Lemma two_step_final_is_stage2_selection_witness :
  select_final sqrt_of_square six_clones 2 2 (3 # 5) "lognormal" 2 None
    six_stage1 six_stage2 (advance six_draws 10)
  = (Normal (Final (assay_g six_stage2) (top2_idx six_stage2)
               (top2_f six_stage2)), advance six_draws 10).
Proof.
  apply (two_step_final_is_stage2_selection sqrt_of_square six_clones 4 2
           (3 # 5) "lognormal" 2 None six_stage1 six_stage2
           (advance six_draws 6) (advance six_draws 10)).
  - discriminate.
  - vm_compute. reflexivity.
Defined.

(** ** Criteria that every row meets *)

Lemma filter_all_true_on_rows (df : frame)
    (criteria_settings : list criterion) (n : nat) (indices : list nat) :
  apply_criteria_filter df criteria_settings (seq 0 n)
    = ok (replicate n true) →
  Forall (λ i, (i < n)%nat) indices →
  apply_criteria_filter df criteria_settings indices
    = ok (replicate (length indices) true).
Proof.
  intros Hfull Hin.
  destruct (filter_mask_inv _ _ _ _ Hfull) as (_ & Hrows).
  assert (Hpass : ∀ i, (i < n)%nat → row_passes df criteria_settings i).
  { intros i Hi. apply (Hrows i i).
    - apply lookup_seq. split; [done|lia].
    - apply lookup_replicate. done. }
  assert (∃ mask, apply_criteria_filter df criteria_settings indices
                  = ok mask) as [mask Hrun].
  { rewrite apply_criteria_filter_loop in *.
    pose proof (proj1 (criteria_loop_returns df (seq 0 n) criteria_settings
                         _) (ex_intro _ _ Hfull)) as Hall.
    apply criteria_loop_returns. intros c o t col Hmem Hcol.
    destruct (Hall c o t col Hmem Hcol) as (Hrange & Hsup).
    split; [|done]. eapply Forall_impl; [exact Hin|].
    intros i Hi. simpl in Hi. rewrite Forall_forall in Hrange.
    apply Hrange. apply elem_of_seq. lia. }
  rewrite Hrun. f_equal.
  destruct (filter_mask_inv _ _ _ _ Hrun) as (Hl & Hm).
  apply mask_ext; [by rewrite length_replicate|]. intros k.
  destruct (indices !! k) as [i|] eqn:Hk.
  - rewrite (Hm k i Hk). split.
    + intros _. apply lookup_replicate. split; [done|].
      by eapply lookup_lt_Some.
    + intros _. apply Hpass. rewrite Forall_forall in Hin.
      apply Hin. by eapply list_elem_of_lookup_2.
  - apply lookup_ge_None in Hk.
    rewrite (proj2 (lookup_ge_None mask k)) by lia.
    rewrite (proj2 (lookup_ge_None (replicate (length indices) true) k));
      [done|]. rewrite length_replicate. lia.
Qed.

Lemma py_tail_elem {A} (k : Z) (a : list A) (x : A) :
  x ∈ py_tail k a → x ∈ a.
Proof.
  destruct (py_tail_suffix k a) as [n ->]. intros H.
  rewrite <- (take_drop n a). apply elem_of_app. by right.
Qed.

Section Harmless.

Variable np_sqrt : Q → Q.
Variables (real_data : list Q) (df : frame).
Variables (step1_keep step2_keep step3_keep : Z) (correlation : Q).
Variables (method : string) (criteria_settings : list criterion).
Variables (workflow_steps : Z) (fitted_model : option fitted) (cutoff : Q).

Hypothesis rows : df_len df = length real_data.
Hypothesis all_pass :
  apply_criteria_filter df criteria_settings (seq 0 (df_len df))
    = ok (replicate (df_len df) true).

Lemma select_step1_harmless (apply_criteria : bool) (g : rng) :
  select_step1 real_data df step1_keep method criteria_settings
    apply_criteria fitted_model g
  = select_step1 real_data df step1_keep method [] apply_criteria
      fitted_model g.
Proof.
  unfold select_step1. rewrite all_pass.
  unfold apply_criteria_filter at 1. by rewrite length_seq.
Qed.

Lemma final_gate_harmless (s1 : stage1) (s2 : stage2) (fin : final)
    (g : rng) :
  Forall (λ i, (i < length real_data)%nat) (top1_idx s1) →
  final_gate df criteria_settings true workflow_steps s1 s2 fin g
  = final_gate df [] true workflow_steps s1 s2 fin g.
Proof.
  intros Hrange. rewrite <- rows in Hrange.
  assert (Hsub : ∀ idx original,
            take_indices (top1_idx s1) idx = ok original →
            apply_criteria_filter df criteria_settings original
            = apply_criteria_filter df [] original).
  { intros idx original Ht. apply take_indices_elem in Ht.
    rewrite (filter_all_true_on_rows df criteria_settings (df_len df)
               original all_pass); [done|].
    eapply Forall_impl; [exact Ht|]. intros i Hi. simpl in Hi.
    rewrite Forall_forall in Hrange. by apply Hrange. }
  unfold final_gate, mbind, body_bind, eval, call.
  destruct (decide (workflow_steps = 3)) as [Hw|Hw].
  - destruct (take_indices (top2_idx s2) (final_idx fin))
      as [e|through2]; [done|].
    destruct (take_indices (top1_idx s1) through2) as [e'|original] eqn:Ho;
      [done|].
    by rewrite (Hsub _ _ Ho).
  - destruct (take_indices (top1_idx s1) (final_idx fin))
      as [e|original] eqn:Ho; [done|].
    by rewrite (Hsub _ _ Ho).
Qed.

Lemma trial_harmless (apply_criteria : bool) (g : rng) :
  trial np_sqrt real_data df step1_keep step2_keep step3_keep correlation
    method criteria_settings apply_criteria workflow_steps fitted_model
    cutoff g
  = trial np_sqrt real_data df step1_keep step2_keep step3_keep correlation
      method [] apply_criteria workflow_steps fitted_model cutoff g.
Proof.
  unfold trial, mbind, body_bind. rewrite select_step1_harmless.
  destruct apply_criteria; [|reflexivity].
  destruct (select_step1 _ _ _ _ _ _ _ g) as [[e| |s1] g1] eqn:Hs1;
    try done.
  destruct (select_step2 _ _ _ _ _ _ _ _ _) as [[e| |s2] g2]; try done.
  destruct (select_final _ _ _ _ _ _ _ _ _ _ _) as [[e| |fin] g3]; try done.
  rewrite final_gate_harmless; [done|].
  apply select_step1_Normal in Hs1 as (_ & Hf & Hidx & _).
  rewrite Hidx. apply Forall_forall. intros i Hi.
  apply py_tail_elem in Hi. rewrite argsort_Permutation in Hi.
  apply elem_of_seq in Hi. rewrite Hf, next_values_length in Hi. lia.
Qed.

Lemma trials_harmless (apply_criteria : bool) (n : nat) :
  ∀ success_count success_counts g,
  trials np_sqrt real_data df step1_keep step2_keep step3_keep correlation
    method criteria_settings apply_criteria workflow_steps fitted_model
    cutoff n success_count success_counts g
  = trials np_sqrt real_data df step1_keep step2_keep step3_keep correlation
      method [] apply_criteria workflow_steps fitted_model cutoff n
      success_count success_counts g.
Proof.
  induction n as [|n IH]; intros sc scs g; [done|].
  cbn [trials]. rewrite trial_harmless.
  destruct (trial _ _ _ _ _ _ _ _ _ _ _ _ _ _) as [[e| |[[[? ?] ?] c]] g1];
    apply IH.
Qed.

End Harmless.

(** X21: criteria that every row of the table meets change nothing: with a
    table that has one row per data value, the run with such criteria, applied
    up front or at the final step, returns exactly what the run without any
    criteria returns, on every outcome of the draws. *)
Theorem harmless_criteria_change_nothing
    (np_sqrt : Q → Q) (real_data : list Q) (df : frame)
    (top_x_percent step1_keep step2_keep step3_keep : Z) (correlation : Q)
    (n_rep : Z) (method : string) (criteria_settings : list criterion)
    (apply_criteria : bool) (workflow_steps : Z) (g : rng) :
  df_len df = length real_data →
  apply_criteria_filter df criteria_settings (seq 0 (df_len df))
    = ok (replicate (df_len df) true) →
  simulate_workflow np_sqrt real_data df top_x_percent step1_keep step2_keep
    step3_keep correlation n_rep method criteria_settings apply_criteria
    workflow_steps g
  = simulate_workflow np_sqrt real_data df top_x_percent step1_keep
      step2_keep step3_keep correlation n_rep method [] apply_criteria
      workflow_steps g.
Proof.
  intros Hrows Hpass. unfold simulate_workflow.
  destruct (validate _ _ _ _ _ ≫= _) as [e|[fm cutoff]]; [done|].
  by rewrite (trials_harmless np_sqrt real_data df step1_keep step2_keep
                step3_keep correlation method criteria_settings
                workflow_steps fm cutoff Hrows Hpass).
Qed.

Lemma harmless_criteria_change_nothing_witness :
  simulate_workflow sqrt_of_square six_clones purity_table 50 4 2 2 (3 # 5)
    2 "lognormal" [("Purity", ">=", 0%Q); ("Yield", "<", 1%Q)] true 2
    two_trials
  = simulate_workflow sqrt_of_square six_clones purity_table 50 4 2 2
      (3 # 5) 2 "lognormal" [] true 2 two_trials.
Proof.
  apply (harmless_criteria_change_nothing sqrt_of_square six_clones
           purity_table 50 4 2 2 (3 # 5) 2 "lognormal"
           [("Purity", ">=", 0%Q); ("Yield", "<", 1%Q)] true 2 two_trials).
  - reflexivity.
  - reflexivity.
Defined.

(** ** Recommended parameters *)

(** X22: the step sizes the assistant recommends for a non-empty data set
    always pass the simulator's validation as a 2-step workflow, and pass it
    as a 3-step workflow exactly from 60 data values on, hence whenever the
    3-step workflow is the one recommended; below 10 data values the
    recommended [step2_keep] is 0, and below 5 so is [step1_keep]. *)
Theorem recommended_step_sizes_are_valid (real_data : list Q) :
  let sizes := recommended_step_sizes (len real_data) in
  0 < len real_data →
  ¬ violated real_data (Recommended.step1_keep sizes)
      (Recommended.step2_keep sizes) (Recommended.step3_keep sizes) 2 ∧
  (¬ violated real_data (Recommended.step1_keep sizes)
       (Recommended.step2_keep sizes) (Recommended.step3_keep sizes) 3
   ↔ 60 ≤ len real_data) ∧
  (workflow_recommendation (len real_data) = "3-step workflow" →
   Recommended.step1_keep sizes = 192 ∧ Recommended.step2_keep sizes = 96 ∧
   Recommended.step3_keep sizes = 6) ∧
  (0 < Recommended.step2_keep sizes ↔ 10 ≤ len real_data) ∧
  (0 < Recommended.step1_keep sizes ↔ 5 ≤ len real_data).
Proof.
  intros sizes Hn. unfold sizes, recommended_step_sizes,
    workflow_recommendation, violated.
  set (n := len real_data) in *.
  pose proof (Z.div_mod n 5 ltac:(lia)) as D5.
  pose proof (Z.mod_pos_bound n 5 ltac:(lia)) as M5.
  pose proof (Z.div_mod n 10 ltac:(lia)) as D10.
  pose proof (Z.mod_pos_bound n 10 ltac:(lia)) as M10.
  pose proof (Z.div_mod n 20 ltac:(lia)) as D20.
  pose proof (Z.mod_pos_bound n 20 ltac:(lia)) as M20.
  repeat case_decide; simpl; repeat split; intros; try discriminate; lia.
Qed.

Lemma recommended_step_sizes_are_valid_witness :
  let sizes := recommended_step_sizes (len six_clones) in
  ¬ violated six_clones (Recommended.step1_keep sizes)
      (Recommended.step2_keep sizes) (Recommended.step3_keep sizes) 2 ∧
  (¬ violated six_clones (Recommended.step1_keep sizes)
       (Recommended.step2_keep sizes) (Recommended.step3_keep sizes) 3
   ↔ 60 ≤ len six_clones) ∧
  (workflow_recommendation (len six_clones) = "3-step workflow" →
   Recommended.step1_keep sizes = 192 ∧ Recommended.step2_keep sizes = 96 ∧
   Recommended.step3_keep sizes = 6) ∧
  (0 < Recommended.step2_keep sizes ↔ 10 ≤ len six_clones) ∧
  (0 < Recommended.step1_keep sizes ↔ 5 ≤ len six_clones).
Proof.
  apply (recommended_step_sizes_are_valid six_clones). reflexivity.
Defined.
